(** * generate_map.py: low-emission-zone extractor

    A shallow embedding of [src/generate_map.py] and the properties of it
    that the specification states.

    Conventions of the embedding.
    - A Python [float] is an IEEE binary64 number: Rocq's primitive [float],
      compared with [PrimFloat.eqb] (so [nan] differs from itself and the
      two zeros are equal, as in Python).
    - Library entry points whose behaviour is not part of this repository
      ([requests.get], [BeautifulSoup], [ET.fromstring], [float] on a string,
      [json.dump]) are the variables of [Section Program].
    - A raised exception is a value of [exception]; a computation that can
      raise returns a [result].
    - [print] appends a [message] to the console; a message records which
      [print] statement ran and the values it interpolates. *)

From Stdlib Require Import PrimFloat Ascii String.
From stdpp Require Import gmap strings list.

Local Open Scope string_scope.
Local Open Scope list_scope.
Set Warnings "-register-all".
Set Default Proof Using "Type".

(** ** Module constants *)

Definition BASE_URL : string :=
  "https://infocar.dgt.es/datex2/v3/dgt/zbe/ControledZonePublication/".
Definition OUTPUT_DIR : string := "data".
Definition GEOJSON_FILE : string := "low_emission_zones.geojson".

(** ** Exceptions and results *)

(** The subclasses of [requests.exceptions.RequestException] that
    [requests.get] and [raise_for_status] raise. *)
Inductive request_error := ConnectionError | Timeout | HTTPError.

Inductive os_error := FileNotFoundError | IsADirectoryError | NotADirectoryError.

Inductive exception :=
| RequestException (kind : request_error)
| ParseError
| AttributeError
| TypeError
| ValueError
| OSError (kind : os_error).

(** The classes named by the [except] clauses of the program. *)
Inductive exception_class := RequestException_class | ParseError_class | Exception_class.

Definition isinstance (e : exception) (c : exception_class) : bool :=
  match c, e with
  | RequestException_class, RequestException _ => true
  | RequestException_class, _ => false
  | ParseError_class, ParseError => true
  | ParseError_class, _ => false
  | Exception_class, _ => true
  end.

Inductive result (A : Type) :=
| Ok (a : A)
| Raise (e : exception).
Arguments Ok {A} a.
Arguments Raise {A} e.

#[export] Instance result_ret : MRet result := fun A a => Ok a.
#[export] Instance result_bind : MBind result :=
  fun A B f m => match m with Ok a => f a | Raise e => Raise e end.

(** ** Strings *)

(** [s.endswith(suffix)] *)
Fixpoint endswith (s suffix : string) : bool :=
  String.eqb s suffix ||
  match s with
  | EmptyString => false
  | String _ s' => endswith s' suffix
  end.

(** [s.startswith(prefix)], returning what follows the prefix. *)
Fixpoint strip_prefix (prefix s : string) : option string :=
  match prefix, s with
  | EmptyString, _ => Some s
  | String a prefix', String b s' =>
      if Ascii.eqb a b then strip_prefix prefix' s' else None
  | String _ _, EmptyString => None
  end.

Fixpoint contains_char (c : ascii) (s : string) : bool :=
  match s with
  | EmptyString => false
  | String a s' => Ascii.eqb a c || contains_char c s'
  end.

(** Truth value of a [str]: the empty string is false. *)
Definition str_truthy (s : string) : bool :=
  match s with EmptyString => false | String _ _ => true end.

(** [os.path.join(a, b)] for a relative [b] on a POSIX system. The result
    names the entry [b] of [a] only for a simple name [b]: the paths of the
    file system are not normalised. *)
Definition os_path_join (a b : string) : string := a +:+ "/" +:+ b.

(** ** Console *)

Inductive message :=
| MsgStarting
| MsgCleaned
| MsgErrorUrlList (e : exception)
| MsgFound (n : nat)
| MsgErrorFetching (url : string) (e : exception)
| MsgErrorParsing (url : string) (e : exception)
| MsgUnexpected (url : string) (e : exception)
| MsgSaved (filepath : string)
| MsgNoFeatures
| MsgNoXml
| MsgFinished.

(** ** HTTP *)

Record Response := { status_code : Z; content : string }.

(** [response.raise_for_status()]: an [HTTPError] for a 4xx or 5xx status. *)
Definition raise_for_status (r : Response) : result unit :=
  if bool_decide (400 ≤ status_code r < 600)%Z
  then Raise (RequestException HTTPError)
  else Ok tt.

(** ** The HTML tree built by BeautifulSoup *)

Inductive PageElement :=
| Tag (name : string) (attrs : gmap string string) (contents : list PageElement)
| NavigableString (s : string).

(** A page element followed by all its descendants, in document order. *)
Fixpoint self_and_descendants (e : PageElement) : list PageElement :=
  match e with
  | Tag _ _ cs => e :: flat_map self_and_descendants cs
  | NavigableString _ => [e]
  end.

Definition descendants (e : PageElement) : list PageElement :=
  match e with
  | Tag _ _ cs => flat_map self_and_descendants cs
  | NavigableString _ => []
  end.

Definition is_tag_named (n : string) (e : PageElement) : bool :=
  match e with
  | Tag m _ _ => String.eqb m n
  | NavigableString _ => false
  end.

(** [soup.find_all(name)] *)
Definition find_all (n : string) (soup : PageElement) : list PageElement :=
  List.filter (is_tag_named n) (descendants soup).

(** [link.get(key)] *)
Definition get (key : string) (link : PageElement) : option string :=
  match link with
  | Tag _ attrs _ => attrs !! key
  | NavigableString _ => None
  end.

(** ** The XML tree built by ElementTree *)

Inductive Element :=
| mkElement (tag : string) (text : option string) (children : list Element).

Definition tag (e : Element) : string := let 'mkElement t _ _ := e in t.
Definition text (e : Element) : option string := let 'mkElement _ x _ := e in x.
Definition children (e : Element) : list Element := let 'mkElement _ _ cs := e in cs.

(** The namespaces of the [ns] dictionary. *)
Definition conz : string := "http://levelC/schema/3/controlledZone".
Definition com : string := "http://levelC/schema/3/common".
Definition tra : string := "http://levelC/schema/3/trafficRegulation".
Definition loc : string := "http://levelC/schema/3/locationReferencing".

(** The tag that a prefixed name [prefix:local] stands for, given the
    namespace the prefix is bound to. *)
Definition qname (uri local_name : string) : string :=
  "{" +:+ uri +:+ "}" +:+ local_name.

(** [elem.iter()]: the element, then its subtree in document order. *)
Fixpoint iter (e : Element) : list Element :=
  match e with
  | mkElement _ _ cs => e :: flat_map iter cs
  end.

Definition has_tag (t : string) (e : Element) : bool := String.eqb (tag e) t.

(** Path step [//t] after [.]: every proper descendant with tag [t]. *)
Definition select_descendant (t : string) (e : Element) : list Element :=
  List.filter (has_tag t) (flat_map iter (children e)).

(** Path step [t]: every direct child with tag [t]. *)
Definition select_child (t : string) (e : Element) : list Element :=
  List.filter (has_tag t) (children e).

(** [zone.find('.//conz:name/com:values/com:value', ns)] *)
Definition find_name_value (zone : Element) : option Element :=
  head (flat_map (select_child (qname com "value"))
          (flat_map (select_child (qname com "values"))
             (select_descendant (qname conz "name") zone))).

(** [elem.find(t)] for a one-step path: the first matching child. *)
Definition find_child (t : string) (e : Element) : option Element :=
  head (select_child t e).

(** ** GeoJSON values *)

(** A position [[lon, lat]]. *)
Definition point : Type := list float.

Record Geometry := {
  geometry_type : string;
  coordinates : list (list (list point))
}.

(** [name] is a [str], or [None] when the element has no text. *)
Record Feature := {
  feature_type : string;
  properties : gmap string (option string);
  geometry : Geometry
}.

Record FeatureCollection := {
  collection_type : string;
  features : list Feature
}.

(** [==] on two distinct lists of floats. *)
Fixpoint point_eq (p q : point) : bool :=
  match p, q with
  | [], [] => true
  | x :: p', y :: q' => PrimFloat.eqb x y && point_eq p' q'
  | _, _ => false
  end.

(** [coords[i] != coords[j]]. List comparison first tests whether the two
    items are the same object; [coords[i]] and [coords[j]] are the same
    object exactly when [i = j], every position being a list of its own
    holding floats of its own. *)
Definition ne_at (coords : list point) (i j : nat) : bool :=
  match coords !! i, coords !! j with
  | Some p, Some q => if bool_decide (i = j) then false else negb (point_eq p q)
  | _, _ => false
  end.

(** Lines 69-70:
    [if coords and coords[0] != coords[-1]: coords.append(coords[0])] *)
Definition close_ring (coords : list point) : list point :=
  match coords !! 0 with
  | Some first =>
      if ne_at coords 0 (length coords - 1) then coords ++ [first] else coords
  | None => coords
  end.

(** ** The listing, as the specification describes it *)

(** The targets of a sequence of anchors that end in [.xml], resolved
    against the base address. *)
Definition xml_targets (links : list PageElement) : list string :=
  (fun href => BASE_URL +:+ href) <$>
    List.filter (fun href => endswith href ".xml") (omap (get "href") links).

(** ** Rings, as the specification describes them *)

(** The closing point of a ring: its first position, when the ring has a
    last position other than the first itself and the two are not equal. *)
Definition closing_point (r : list point) : option point :=
  match r with
  | [] => None
  | first :: rest =>
      match last rest with
      | None => None
      | Some final => if point_eq first final then None else Some first
      end
  end.

(** The ring emitted for the corners [(lat, lon)] of a polygon. *)
Definition emitted_ring (corners : list (float * float)) : list point :=
  let r := (fun c => [c.2; c.1]) <$> corners in
  r ++ option_list (closing_point r).

(** Two positions are the same when they are one value, or are equal as
    Python compares lists of floats. *)
Definition same_position (p q : point) : Prop := p = q ∨ point_eq p q = true.

(** A ring is closed when its first and last positions are the same. *)
Definition closed (r : list point) : Prop :=
  ∀ p q, head r = Some p → last r = Some q → same_position p q.

(** ** The file system *)

Inductive node := File (data : string) | Dir.

(** The calls that change the file system. *)
Inductive syscall :=
| sys_remove (path : string)
| sys_makedirs (path : string)
| sys_open_w (path : string).

(** The state of a run: the files, by path; the console; the file-system
    calls made so far. *)
Record world := {
  fs : gmap string node;
  stdout : list message;
  calls : list syscall
}.

Definition print (m : message) (w : world) : world :=
  {| fs := fs w; stdout := stdout w ++ [m]; calls := calls w |}.

Definition print_all (ms : list message) (w : world) : world :=
  {| fs := fs w; stdout := stdout w ++ ms; calls := calls w |}.

(** The name of [path] inside the directory [dirname], when [path] is an
    entry of that directory. *)
Definition entry_name (dirname path : string) : option string :=
  match strip_prefix (dirname +:+ "/") path with
  | Some n => if str_truthy n && negb (contains_char "/" n) then Some n else None
  | None => None
  end.

(** [os.listdir(dirname)], empty when [dirname] is not a directory. *)
Definition listdir (fs : gmap string node) (dirname : string) : list string :=
  match fs !! dirname with
  | Some Dir => omap (entry_name dirname) (fst <$> map_to_list fs)
  | _ => []
  end.

(** A name that [glob] hides from a pattern not starting with a dot. *)
Definition ishidden (n : string) : bool :=
  match n with
  | String c _ => Ascii.eqb c "."
  | EmptyString => false
  end.

(** [os.remove(path)]. Permissions are not part of the file system here,
    so the only failures are those of the kind of the node. *)
Definition os_remove (path : string) (w : world) : world * option exception :=
  let w' := {| fs := fs w; stdout := stdout w; calls := calls w ++ [sys_remove path] |} in
  match fs w !! path with
  | Some (File _) =>
      ({| fs := delete path (fs w); stdout := stdout w; calls := calls w' |}, None)
  | Some Dir => (w', Some (OSError IsADirectoryError))
  | None => (w', Some (OSError FileNotFoundError))
  end.

(** [os.path.exists(path)] *)
Definition os_path_exists (path : string) (w : world) : bool :=
  bool_decide (is_Some (fs w !! path)).

(** [os.makedirs(path)] for a one-component path that does not exist. *)
Definition os_makedirs (path : string) (w : world) : world :=
  {| fs := <[path := Dir]> (fs w); stdout := stdout w;
     calls := calls w ++ [sys_makedirs path] |}.

(** [with open(filepath, 'w') as f: f.write(data)] for a path
    [OUTPUT_DIR/filename] with a simple [filename]. Permissions are not part
    of the file system here. *)
Definition open_w (filepath data : string) (w : world) : world * option exception :=
  let w' := {| fs := fs w; stdout := stdout w; calls := calls w ++ [sys_open_w filepath] |} in
  match fs w !! OUTPUT_DIR with
  | Some Dir =>
      match fs w !! filepath with
      | Some Dir => (w', Some (OSError IsADirectoryError))
      | _ => ({| fs := <[filepath := File data]> (fs w); stdout := stdout w;
                 calls := calls w' |}, None)
      end
  | Some (File _) => (w', Some (OSError NotADirectoryError))
  | None => (w', Some (OSError FileNotFoundError))
  end.

(** A call that removes a file, the only kind that [clean_old_files]
    makes. *)
Definition removal (c : syscall) : Prop := ∃ path, c = sys_remove path.

(** A path that the pattern [OUTPUT_DIR/*.xml] matches: an entry of the
    directory whose name is not hidden and ends in [.xml]. *)
Definition xml_entry (path : string) : Prop :=
  ∃ n, path = os_path_join OUTPUT_DIR n ∧
       str_truthy n = true ∧ contains_char "/" n = false ∧
       ishidden n = false ∧ endswith n ".xml" = true.

(** A file name that names an entry of the directory it is joined to: not
    empty, without separator, and neither [.] nor [..]. *)
Definition simple_name (n : string) : Prop :=
  str_truthy n = true ∧ contains_char "/" n = false ∧ n ≠ "." ∧ n ≠ "..".

(** ** The program *)

Section Program.

(** [requests.get(url)]: a response, or one of the request errors. *)
Variable requests_get : string -> request_error + Response.
(** [BeautifulSoup(text, 'html.parser')]: the document object, for a text
    that the parser accepts. *)
Variable BeautifulSoup : string -> PageElement.
(** [ET.fromstring(content)]: the root element, or [None] for a
    [ParseError]. Other exceptions of the parser, as for an encoding it does
    not know, are not represented. *)
Variable ET_fromstring : string -> option Element.
(** [float(s)] on a string: the number, or [None] for a [ValueError]. *)
Variable float_of_string : string -> option float.
(** The text that [json.dump(data, f, indent=2)] writes. *)
Variable json_dump : FeatureCollection -> string.

(** [requests.get(url)] followed by [response.raise_for_status()] *)
Definition fetch (url : string) : result Response :=
  match requests_get url with
  | inl kind => Raise (RequestException kind)
  | inr response => _ ← raise_for_status response; Ok response
  end.

(** *** fetch_xml_urls *)

(** Lines 25-28: one iteration of the loop over [links]. *)
Definition collect_link (xml_urls : list string) (link : PageElement) : list string :=
  match get "href" link with
  | Some href =>
      if str_truthy href && endswith href ".xml"
      then xml_urls ++ [BASE_URL +:+ href]
      else xml_urls
  | None => xml_urls
  end.

Definition fetch_xml_urls : result (list string) * list message :=
  match fetch BASE_URL with
  | Ok response =>
      let soup := BeautifulSoup (content response) in
      let links := find_all "a" soup in
      (Ok (fold_left collect_link links []), [])
  | Raise e =>
      if isinstance e RequestException_class
      then (Ok [], [MsgErrorUrlList e])
      else (Raise e, [])
  end.

(** *** process_xml_to_geojson *)

(** [float(elem.text)] where [elem] is the result of [find]: an
    [AttributeError] when [find] returned [None], a [TypeError] when the
    element has no text, a [ValueError] when the text is not a number. *)
Definition float_text (elem : option Element) : result float :=
  match elem with
  | None => Raise AttributeError
  | Some e =>
      match text e with
      | None => Raise TypeError
      | Some s =>
          match float_of_string s with
          | Some x => Ok x
          | None => Raise ValueError
          end
      end
  end.

(** Lines 65-66: the latitude and the longitude of a coordinate element. *)
Definition lat_lon (coord : Element) : result (float * float) :=
  lat ← float_text (find_child (qname loc "latitude") coord);
  lon ← float_text (find_child (qname loc "longitude") coord);
  Ok (lat, lon).

(** Lines 65-67: the position appended for a coordinate element. *)
Definition position (coord : Element) : result point :=
  '(lat, lon) ← lat_lon coord;
  Ok [lon; lat].

(** Lines 63-70: the ring of a polygon element. *)
Definition polygon_ring (polygon : Element) : result (list point) :=
  coords ← mapM position (select_child (qname loc "openlrCoordinates") polygon);
  Ok (close_ring coords).

(** Lines 61-71: the rings of a zone. *)
Definition zone_polygons (zone : Element) : result (list (list point)) :=
  mapM polygon_ring (select_descendant (qname loc "openlrPolygonCorners") zone).

(** Lines 57-58 *)
Definition zone_name (zone : Element) : option string :=
  match find_name_value zone with
  | Some zone_name_elem => text zone_name_elem
  | None => Some "Unknown Zone"
  end.

(** Lines 75-84 *)
Definition make_feature (zone_name : option string) (polygons : list (list point)) : Feature :=
  {| feature_type := "Feature";
     properties := {[ "name" := zone_name ]};
     geometry := {| geometry_type := "MultiPolygon";
                    coordinates := [polygons] |} |}.

(** Lines 56-85: the loop over the zones of a document. The list of
    features is updated in place, so what was appended before an exception
    stays appended. *)
Fixpoint for_zones (zones : list Element) (geojson_features : list Feature)
  : list Feature * option exception :=
  match zones with
  | [] => (geojson_features, None)
  | zone :: zones' =>
      let name := zone_name zone in
      match zone_polygons zone with
      | Raise e => (geojson_features, Some e)
      | Ok polygons =>
          for_zones zones'
            (match polygons with
             | [] => geojson_features
             | _ :: _ => geojson_features ++ [make_feature name polygons]
             end)
      end
  end.

(** Lines 43-85: the body of the [try] statement. *)
Definition try_body (url : string) (geojson_features : list Feature)
  : list Feature * option exception :=
  match fetch url with
  | Raise e => (geojson_features, Some e)
  | Ok response =>
      match ET_fromstring (content response) with
      | None => (geojson_features, Some ParseError)
      | Some root =>
          for_zones (select_descendant (qname conz "controlledZone") root)
            geojson_features
      end
  end.

(** Lines 87-92: the [except] clauses, tried in order. [None] when no
    clause matches and the exception propagates. *)
Definition except_clauses (url : string) (e : exception) : option message :=
  if isinstance e RequestException_class then Some (MsgErrorFetching url e)
  else if isinstance e ParseError_class then Some (MsgErrorParsing url e)
  else if isinstance e Exception_class then Some (MsgUnexpected url e)
  else None.

(** Lines 41-92: the loop over the addresses. *)
Fixpoint for_urls (xml_urls : list string) (geojson_features : list Feature)
  (stdout : list message) : result (list Feature) * list message :=
  match xml_urls with
  | [] => (Ok geojson_features, stdout)
  | url :: xml_urls' =>
      match try_body url geojson_features with
      | (geojson_features', None) => for_urls xml_urls' geojson_features' stdout
      | (geojson_features', Some e) =>
          match except_clauses url e with
          | Some msg => for_urls xml_urls' geojson_features' (stdout ++ [msg])
          | None => (Raise e, stdout)
          end
      end
  end.

Definition process_xml_to_geojson (xml_urls : list string)
  : result FeatureCollection * list message :=
  let '(r, stdout) := for_urls xml_urls [] [MsgFound (length xml_urls)] in
  (geojson_features ← r;
   Ok {| collection_type := "FeatureCollection"; features := geojson_features |},
   stdout).

(** *** What a zone and a document contribute *)

(** Lines 57-85 for one zone: the feature appended, if any. *)
Definition zone_feature (zone : Element) : result (option Feature) :=
  polygons ← zone_polygons zone;
  Ok (match polygons with
      | [] => None
      | _ :: _ => Some (make_feature (zone_name zone) polygons)
      end).

(** The zone elements of a document, in document order. *)
Definition zones_of (root : Element) : list Element :=
  select_descendant (qname conz "controlledZone") root.

(** The features of a document all of whose zones are processed. *)
Definition document_features (root : Element) : result (list Feature) :=
  fs ← mapM zone_feature (zones_of root);
  Ok (omap id fs).

(** The features that the resource at [url] adds to the collection. *)
Definition contribution (url : string) : list Feature :=
  (try_body url []).1.

(** The message printed for the resource at [url]: the one of the [except]
    clause that handles what the body of the [try] statement raises there. *)
Definition resource_message (url : string) : option message :=
  match (try_body url []).2 with
  | Some e => except_clauses url e
  | None => None
  end.

(** *** The files of the run *)

(** [glob.glob(os.path.join(OUTPUT_DIR, '*.xml'))] *)
Definition glob_xml (fs : gmap string node) : list string :=
  os_path_join OUTPUT_DIR <$>
    List.filter (fun n => negb (ishidden n) && endswith n ".xml")
      (listdir fs OUTPUT_DIR).

(** Lines 112-113: the loop of [clean_old_files]. *)
Fixpoint remove_files (files : list string) (w : world) : world * option exception :=
  match files with
  | [] => (w, None)
  | f :: files' =>
      match os_remove f w with
      | (w', None) => remove_files files' w'
      | (w', Some e) => (w', Some e)
      end
  end.

Definition clean_old_files (w : world) : world * option exception :=
  let files := glob_xml (fs w) in
  match remove_files files w with
  | (w', None) => (print MsgCleaned w', None)
  | (w', Some e) => (w', Some e)
  end.

Definition save_geojson (data : FeatureCollection) (filename : string) (w : world)
  : world * option exception :=
  let w1 := if os_path_exists OUTPUT_DIR w then w else os_makedirs OUTPUT_DIR w in
  let filepath := os_path_join OUTPUT_DIR filename in
  match open_w filepath (json_dump data) w1 with
  | (w2, None) => (print (MsgSaved filepath) w2, None)
  | (w2, Some e) => (w2, Some e)
  end.

(** *** The script body (lines 116-129) *)

Definition main (w : world) : world * option exception :=
  let w := print MsgStarting w in
  match clean_old_files w with
  | (w, Some e) => (w, Some e)
  | (w, None) =>
      match fetch_xml_urls with
      | (Raise e, out) => (print_all out w, Some e)
      | (Ok xml_urls, out) =>
          let w := print_all out w in
          match xml_urls with
          | [] => (print MsgFinished (print MsgNoXml w), None)
          | _ :: _ =>
              match process_xml_to_geojson xml_urls with
              | (Raise e, out) => (print_all out w, Some e)
              | (Ok geojson_data, out) =>
                  let w := print_all out w in
                  match features geojson_data with
                  | [] => (print MsgFinished (print MsgNoFeatures w), None)
                  | _ :: _ =>
                      match save_geojson geojson_data GEOJSON_FILE w with
                      | (w, None) => (print MsgFinished w, None)
                      | (w, Some e) => (w, Some e)
                      end
                  end
              end
          end
      end
  end.

(** A run of the script on a file system. *)
Definition run (fs0 : gmap string node) : world * option exception :=
  main {| fs := fs0; stdout := []; calls := [] |}.

(** The features that a run extracts. *)
Definition extracted : list Feature :=
  match fetch_xml_urls with
  | (Ok xml_urls, _) =>
      match process_xml_to_geojson xml_urls with
      | (Ok geojson_data, _) => features geojson_data
      | (Raise _, _) => []
      end
  | (Raise _, _) => []
  end.

End Program.

(** ** Sample documents

    Concrete values for the library entry points and a few documents, on
    which the program is evaluated. *)

Module Sample.

Local Open Scope float_scope.

(** The value of a decimal digit, from its character code. *)
Definition digit_value (c : ascii) : option float :=
  let code := nat_of_ascii c in
  if Nat.leb 48 code && Nat.leb code 57
  then Some (Nat.iter (code - 48)%nat (fun x => x + 1) 0)
  else None.

Fixpoint digits_value (s : string) (acc : float) : option float :=
  match s with
  | EmptyString => Some acc
  | String c s' =>
      match digit_value c with
      | Some d => digits_value s' (acc * 10 + d)
      | None => None
      end
  end.

Definition unsigned_value (s : string) : option float :=
  match s with
  | EmptyString => None
  | String _ _ => digits_value s 0
  end.

(** [float] on the strings used below: ["nan"], and a run of decimal
    digits with an optional minus sign. Any other string is rejected. *)
Definition float_of_string (s : string) : option float :=
  if String.eqb s "nan" then Some nan
  else match s with
       | String "-"%char s' => opp <$> unsigned_value s'
       | _ => unsigned_value s
       end.

Definition leaf (t s : string) : Element := mkElement t (Some s) [].

(** [<loc:openlrCoordinates>] with a latitude and a longitude. *)
Definition coordinate (lat lon : string) : Element :=
  mkElement (qname loc "openlrCoordinates") None
    [leaf (qname loc "latitude") lat; leaf (qname loc "longitude") lon].

Definition polygon (coords : list Element) : Element :=
  mkElement (qname loc "openlrPolygonCorners") None coords.

(** [<conz:name><com:values><com:value>] *)
Definition name_of (value : Element) : Element :=
  mkElement (qname conz "name") None [mkElement (qname com "values") None [value]].

Definition zone (parts : list Element) : Element :=
  mkElement (qname conz "controlledZone") None parts.

Definition publication (zones : list Element) : Element :=
  mkElement "{http://levelC/schema/3/d2Payload}payload" None zones.

(** The zone of the specification's example: one polygon with the
    corners (1,2), (3,4), (5,6), given as (latitude, longitude). *)
Definition triangle : Element :=
  polygon [coordinate "1" "2"; coordinate "3" "4"; coordinate "5" "6"].

Definition zone_centro : Element :=
  zone [name_of (leaf (qname com "value") "Centro"); triangle].

(** A zone whose only polygon element has no coordinate element. *)
Definition zone_hollow : Element :=
  zone [name_of (leaf (qname com "value") "Hollow"); polygon []].

(** A zone without a polygon element. *)
Definition zone_bare : Element :=
  zone [name_of (leaf (qname com "value") "Bare")].

(** A zone whose name element is empty: [<com:value/>]. *)
Definition zone_untitled : Element :=
  zone [name_of (mkElement (qname com "value") None []); triangle].

(** A zone without a name element. *)
Definition zone_anonymous : Element := zone [triangle].

(** A zone with a coordinate element that lacks its latitude. *)
Definition zone_broken : Element :=
  zone [name_of (leaf (qname com "value") "Broken");
        polygon [mkElement (qname loc "openlrCoordinates") None
                   [leaf (qname loc "longitude") "7"]]].

Definition ET_fromstring (content : string) : option Element :=
  if String.eqb content "<centro/>" then Some (publication [zone_centro])
  else if String.eqb content "<hollow/>" then Some (publication [zone_hollow])
  else if String.eqb content "<bare/>" then Some (publication [zone_bare])
  else if String.eqb content "<untitled/>" then Some (publication [zone_untitled])
  else if String.eqb content "<anonymous/>" then Some (publication [zone_anonymous])
  else if String.eqb content "<mixed/>" then Some (publication [zone_centro; zone_broken; zone_anonymous])
  else if String.eqb content "<empty/>" then Some (publication [])
  else None.

Definition link (href : string) : PageElement :=
  Tag "a" {[ "href" := href ]} [NavigableString href].

(** The index page: links to four documents, a link to the parent
    directory, an anchor without target. *)
Definition index_page : PageElement :=
  Tag "[document]" ∅
    [Tag "html" ∅
       [Tag "body" ∅
          [link "../";
           link "centro.xml";
           Tag "p" ∅ [link "mixed.xml"; Tag "a" {[ "name" := "top.xml" ]} []];
           link "notes.txt";
           link "down.xml";
           link "garbled.xml"]]].

Definition BeautifulSoup (_ : string) : PageElement := index_page.

Definition requests_get (url : string) : request_error + Response :=
  if String.eqb url BASE_URL then inr {| status_code := 200; content := "<html/>" |}
  else if String.eqb url (BASE_URL +:+ "centro.xml")
  then inr {| status_code := 200; content := "<centro/>" |}
  else if String.eqb url (BASE_URL +:+ "mixed.xml")
  then inr {| status_code := 200; content := "<mixed/>" |}
  else if String.eqb url (BASE_URL +:+ "hollow.xml")
  then inr {| status_code := 200; content := "<hollow/>" |}
  else if String.eqb url (BASE_URL +:+ "untitled.xml")
  then inr {| status_code := 200; content := "<untitled/>" |}
  else if String.eqb url (BASE_URL +:+ "empty.xml")
  then inr {| status_code := 200; content := "<empty/>" |}
  else if String.eqb url (BASE_URL +:+ "garbled.xml")
  then inr {| status_code := 200; content := "<centro" |}
  else if String.eqb url (BASE_URL +:+ "gone.xml")
  then inr {| status_code := 404; content := "" |}
  else inl ConnectionError.

(** A network on which every document yields no feature. *)
Definition requests_get_barren (url : string) : request_error + Response :=
  if String.eqb url BASE_URL then inr {| status_code := 200; content := "<html/>" |}
  else inr {| status_code := 200; content := "<empty/>" |}.

(** The ring and the feature expected for [zone_centro]. *)
Definition triangle_ring : list point := [[2; 1]; [4; 3]; [6; 5]; [2; 1]].

Definition centro_feature : Feature :=
  make_feature (Some "Centro") [triangle_ring].

(** A file system with an output of an earlier run and a stale
    document. *)
Definition files : gmap string node :=
  {[ "data" := Dir;
     "data/old.xml" := File "<old/>";
     "data/low_emission_zones.geojson" := File "{features: [...]}" ]}.

(** [files] without its stale document. *)
Definition files_cleaned : gmap string node :=
  {[ "data" := Dir;
     "data/low_emission_zones.geojson" := File "{features: [...]}" ]}.

(** The state in which a run starts on given files. *)
Definition fresh (files0 : gmap string node) : world :=
  {| fs := files0; stdout := []; calls := [] |}.

Definition json_dump (data : FeatureCollection) : string :=
  match features data with
  | [] => "{features: []}"
  | _ :: _ => "{features: [...]}"
  end.

End Sample.

(** * Properties *)

(** ** Strings *)

Lemma endswith_unfold (s suffix : string) :
  endswith s suffix =
  String.eqb s suffix ||
  match s with
  | EmptyString => false
  | String _ s' => endswith s' suffix
  end.
Proof. by destruct s. Qed.

Lemma endswith_suffix (s suffix : string) :
  endswith s suffix = true ↔ ∃ before, s = before +:+ suffix.
Proof.
  induction s as [|a s IH]; rewrite endswith_unfold.
  - rewrite orb_false_r, String.eqb_eq. split.
    + intros <-. by exists "".
    + intros [[|b before] E]; simpl in E; [done | discriminate].
  - rewrite orb_true_iff, String.eqb_eq, IH. split.
    + intros [<- | [before ->]]; [by exists "" | by exists (String a before)].
    + intros [[|b before] E]; simpl in E; [by left |].
      injection E as -> ->. right. by exists before.
Qed.

Lemma endswith_truthy (s : string) :
  endswith s ".xml" = true → str_truthy s = true.
Proof. by destruct s. Qed.

(** ** The resource lister *)

Section Lister.

Context (requests_get : string -> request_error + Response)
        (BeautifulSoup : string -> PageElement).

Lemma collect_link_fold (links : list PageElement) (xml_urls : list string) :
  fold_left collect_link links xml_urls = xml_urls ++ xml_targets links.
Proof.
  revert xml_urls. induction links as [|link links IH]; intros xml_urls.
  - by rewrite app_nil_r.
  - simpl. rewrite IH. unfold collect_link, xml_targets. simpl.
    destruct (get "href" link) as [href|]; [|done].
    simpl. destruct (endswith href ".xml") eqn:E.
    + rewrite (endswith_truthy _ E). simpl. by rewrite <- app_assoc.
    + by rewrite andb_false_r.
Qed.

(** C4. When the index document is retrieved, the lister returns, in
    document order, the target of every anchor that has one ending in
    [.xml], with the base address put in front; an address is returned
    only for such an anchor. *)
Theorem C4_lister_returns_xml_targets (response : Response) :
  fetch requests_get BASE_URL = Ok response →
  let links := find_all "a" (BeautifulSoup (content response)) in
  (fetch_xml_urls requests_get BeautifulSoup).1 = Ok (xml_targets links) ∧
  ∀ url, url ∈ xml_targets links ↔
    ∃ link href before,
      link ∈ links ∧ get "href" link = Some href ∧
      href = before +:+ ".xml" ∧ url = BASE_URL +:+ href.
Proof.
  intros Hfetch links. split.
  - unfold fetch_xml_urls. rewrite Hfetch. simpl.
    by rewrite collect_link_fold.
  - intros url. unfold xml_targets. rewrite list_elem_of_fmap. split.
    + intros (href & -> & Hin).
      apply list_elem_of_In, filter_In in Hin as [Hin Hsuffix].
      apply list_elem_of_In, list_elem_of_omap in Hin as (link & Hlink & Hget).
      apply endswith_suffix in Hsuffix as [before ->].
      by exists link, (before +:+ ".xml"), before.
    + intros (link & href & before & Hlink & Hget & -> & ->).
      exists (before +:+ ".xml"). split; [done |].
      apply list_elem_of_In, filter_In. split.
      * apply list_elem_of_In, list_elem_of_omap. by exists link.
      * apply endswith_suffix. by exists before.
Qed.

End Lister.

(** ** Computations that can raise *)

Lemma bind_Ok {A B} (f : A -> result B) (a : A) : Ok a ≫= f = f a.
Proof. reflexivity. Qed.

Lemma bind_Raise {A B} (f : A -> result B) (e : exception) :
  Raise e ≫= f = Raise e.
Proof. reflexivity. Qed.

Lemma bind_Ok_inv {A B} (f : A -> result B) (m : result A) (b : B) :
  m ≫= f = Ok b → ∃ a, m = Ok a ∧ f a = Ok b.
Proof. destruct m as [a|e]; [by exists a | discriminate]. Qed.

Lemma mapM_nil {A B} (f : A -> result B) : mapM f [] = Ok [].
Proof. reflexivity. Qed.

Lemma mapM_cons {A B} (f : A -> result B) (x : A) (l : list A) :
  mapM f (x :: l) = y ← f x; k ← mapM f l; Ok (y :: k).
Proof. reflexivity. Qed.

(** A loop that runs to its end has processed every element. *)
Lemma mapM_Ok_length {A B} (f : A -> result B) (l : list A) (ys : list B) :
  mapM f l = Ok ys → length ys = length l.
Proof.
  revert ys. induction l as [|x l IH]; intros ys.
  - rewrite mapM_nil. by intros [= <-].
  - rewrite mapM_cons. intros H.
    apply bind_Ok_inv in H as (y & _ & H).
    apply bind_Ok_inv in H as (k & Hk & [= <-]).
    simpl. by rewrite (IH k).
Qed.

Lemma mapM_Ok_lookup {A B} (f : A -> result B) (l : list A) (ys : list B) i x :
  mapM f l = Ok ys → l !! i = Some x → ∃ y, ys !! i = Some y ∧ f x = Ok y.
Proof.
  revert ys i. induction l as [|x0 l IH]; intros ys i; [done |].
  rewrite mapM_cons. intros H.
  apply bind_Ok_inv in H as (y & Hy & H).
  apply bind_Ok_inv in H as (k & Hk & [= <-]).
  destruct i as [|i]; simpl.
  - intros [= ->]. by exists y.
  - intros Hx. by apply (IH k).
Qed.

Lemma mapM_Ok_elem_of {A B} (f : A -> result B) (l : list A) (ys : list B) y :
  mapM f l = Ok ys → y ∈ ys → ∃ x, x ∈ l ∧ f x = Ok y.
Proof.
  revert ys. induction l as [|x0 l IH]; intros ys.
  - rewrite mapM_nil. intros [= <-] Hy. by apply not_elem_of_nil in Hy.
  - rewrite mapM_cons. intros H.
    apply bind_Ok_inv in H as (y0 & Hy0 & H).
    apply bind_Ok_inv in H as (k & Hk & [= <-]).
    intros [-> | Hy]%elem_of_cons.
    + exists x0. split; [apply elem_of_cons; by left | done].
    + destruct (IH k Hk Hy) as (x & Hx & Hfx).
      exists x. split; [apply elem_of_cons; by right | done].
Qed.

(** A loop that runs to its end pairs each element with its result. *)
Lemma mapM_Ok_Forall2 {A B} (f : A -> result B) (l : list A) (ys : list B) :
  mapM f l = Ok ys → Forall2 (fun x y => f x = Ok y) l ys.
Proof.
  revert ys. induction l as [|x l IH]; intros ys.
  - rewrite mapM_nil. intros [= <-]. constructor.
  - rewrite mapM_cons. intros H.
    apply bind_Ok_inv in H as (y & Hy & H).
    apply bind_Ok_inv in H as (k & Hk & [= <-]).
    constructor; [done | by apply IH].
Qed.

(** Two loops over the same elements, the second computing at each element
    a function of what the first computes. *)
Lemma mapM_Ok_compose {A B C} (f : A -> result B) (g : A -> result C)
    (h : B -> C) (l : list A) (ys : list B) :
  (∀ x y, f x = Ok y → g x = Ok (h y)) →
  mapM f l = Ok ys → mapM g l = Ok (h <$> ys).
Proof.
  intros Hfg. revert ys. induction l as [|x l IH]; intros ys.
  - rewrite !mapM_nil. by intros [= <-].
  - rewrite !mapM_cons. intros H.
    apply bind_Ok_inv in H as (y & Hy & H).
    apply bind_Ok_inv in H as (k & Hk & [= <-]).
    by rewrite (Hfg _ _ Hy), bind_Ok, (IH k Hk).
Qed.

(** ** Rings *)

Lemma close_ring_closing_point (coords : list point) :
  close_ring coords = coords ++ option_list (closing_point coords).
Proof.
  destruct coords as [|first [|second rest]].
  - reflexivity.
  - reflexivity.
  - unfold close_ring, ne_at, closing_point.
    change (length (first :: second :: rest) - 1) with (S (length rest)).
    change ((first :: second :: rest) !! 0) with (Some first).
    change ((first :: second :: rest) !! S (length rest))
      with ((second :: rest) !! pred (length (second :: rest))).
    rewrite <- last_lookup.
    destruct (last (second :: rest)) as [final|] eqn:Hlast.
    + case_bool_decide; [done |].
      destruct (point_eq first final); simpl; [by rewrite app_nil_r | done].
    + by rewrite app_nil_r.
Qed.

Lemma close_ring_closed (coords : list point) : closed (close_ring coords).
Proof.
  rewrite close_ring_closing_point. intros p q Hhead Hlast.
  destruct coords as [|first rest]; [done |].
  simpl in Hhead. injection Hhead as <-.
  unfold closing_point in Hlast.
  destruct (last rest) as [final|] eqn:Hrest.
  - destruct (point_eq first final) eqn:Heq.
    + simpl in Hlast. rewrite app_nil_r in Hlast.
      rewrite last_cons, Hrest in Hlast. injection Hlast as <-. by right.
    + simpl in Hlast. change (first :: rest ++ [first]) with ((first :: rest) ++ [first]) in Hlast.
      rewrite last_snoc in Hlast. injection Hlast as <-. by left.
  - simpl in Hlast. rewrite app_nil_r in Hlast.
    rewrite last_cons, Hrest in Hlast. injection Hlast as <-. by left.
Qed.

(** A ring of one position is left as it is, whatever the position holds:
    its first and last positions are one object. *)
Example close_ring_single_nan :
  close_ring [[nan; 1]]%float = [[nan; 1]]%float.
Proof. reflexivity. Qed.

(** Two positions holding [nan] are not equal, so the ring gets a closing
    point. *)
Example close_ring_nan :
  close_ring [[nan; 1]; [2; 2]; [nan; 1]]%float
  = [[nan; 1]; [2; 2]; [nan; 1]; [nan; 1]]%float.
Proof. reflexivity. Qed.

(** The two zeros are equal, so this ring counts as closed already. *)
Example close_ring_signed_zero :
  close_ring [[0; 1]; [2; 2]; [-0; 1]]%float
  = [[0; 1]; [2; 2]; [-0; 1]]%float.
Proof. reflexivity. Qed.

(** ** The zone extractor *)

Arguments qname : simpl never.

Lemma isinstance_Exception (e : exception) : isinstance e Exception_class = true.
Proof. reflexivity. Qed.

Lemma except_clauses_Some (url : string) (e : exception) :
  is_Some (except_clauses url e).
Proof. unfold except_clauses. destruct e; simpl; eauto. Qed.

Lemma omap_id_cons {A} (o : option A) (os : list (option A)) :
  omap id (o :: os) = option_list o ++ omap id os.
Proof. by destruct o. Qed.

Section Extractor.

Context (requests_get : string -> request_error + Response)
        (ET_fromstring : string -> option Element)
        (float_of_string : string -> option float).

Lemma position_lat_lon (coord : Element) (c : float * float) :
  lat_lon float_of_string coord = Ok c →
  position float_of_string coord = Ok [c.2; c.1].
Proof. unfold position. intros ->. by destruct c. Qed.

Lemma polygon_ring_corners (polygon : Element) (corners : list (float * float)) :
  mapM (lat_lon float_of_string)
    (select_child (qname loc "openlrCoordinates") polygon) = Ok corners →
  polygon_ring float_of_string polygon = Ok (emitted_ring corners).
Proof.
  intros H. unfold polygon_ring, emitted_ring.
  rewrite (mapM_Ok_compose _ _ _ _ _ position_lat_lon H), bind_Ok.
  by rewrite close_ring_closing_point.
Qed.

Lemma polygon_ring_closed (polygon : Element) (r : list point) :
  polygon_ring float_of_string polygon = Ok r → closed r.
Proof.
  unfold polygon_ring. intros H.
  apply bind_Ok_inv in H as (coords & _ & [= <-]).
  apply close_ring_closed.
Qed.

Lemma polygon_ring_empty (polygon : Element) :
  select_child (qname loc "openlrCoordinates") polygon = [] →
  polygon_ring float_of_string polygon = Ok [].
Proof. unfold polygon_ring. by intros ->. Qed.

(** *** The loop over the zones *)

Lemma zone_feature_Raise (zone : Element) (e : exception) :
  zone_feature float_of_string zone = Raise e ↔
  zone_polygons float_of_string zone = Raise e.
Proof.
  unfold zone_feature.
  destruct (zone_polygons float_of_string zone) as [[|r rs]|e']; simpl.
  all: split; intros H; first [discriminate H | by injection H as ->].
Qed.

Lemma zone_feature_Some (zone : Element) (f : Feature) :
  zone_feature float_of_string zone = Ok (Some f) →
  ∃ polygons, zone_polygons float_of_string zone = Ok polygons ∧
              polygons ≠ [] ∧ f = make_feature (zone_name zone) polygons.
Proof.
  unfold zone_feature.
  destruct (zone_polygons float_of_string zone) as [[|r rs]|e']; simpl;
    try discriminate.
  intros [= <-]. by exists (r :: rs).
Qed.

Lemma for_zones_cons (zone : Element) (zones : list Element) (feats : list Feature) :
  for_zones float_of_string (zone :: zones) feats =
  match zone_feature float_of_string zone with
  | Raise e => (feats, Some e)
  | Ok o => for_zones float_of_string zones (feats ++ option_list o)
  end.
Proof.
  unfold zone_feature. simpl.
  destruct (zone_polygons float_of_string zone) as [[|r rs]|e']; simpl;
    by rewrite ?app_nil_r.
Qed.

(** What the loop appends does not depend on what the list holds. *)
Lemma for_zones_app (zones : list Element) (feats : list Feature) :
  for_zones float_of_string zones feats =
  (feats ++ (for_zones float_of_string zones []).1,
   (for_zones float_of_string zones []).2).
Proof.
  revert feats. induction zones as [|zone zones IH]; intros feats.
  - simpl. by rewrite app_nil_r.
  - rewrite !for_zones_cons.
    destruct (zone_feature float_of_string zone) as [o|e]; simpl.
    + rewrite (IH (feats ++ option_list o)), (IH (option_list o)). simpl.
      by rewrite <- app_assoc.
    + by rewrite app_nil_r.
Qed.

Lemma for_zones_Ok (zones : list Element) (ofs : list (option Feature))
    (feats : list Feature) :
  mapM (zone_feature float_of_string) zones = Ok ofs →
  for_zones float_of_string zones feats = (feats ++ omap id ofs, None).
Proof.
  revert ofs feats. induction zones as [|zone zones IH]; intros ofs feats.
  - rewrite mapM_nil. intros [= <-]. simpl. by rewrite app_nil_r.
  - rewrite mapM_cons. intros H.
    apply bind_Ok_inv in H as (o & Ho & H).
    apply bind_Ok_inv in H as (k & Hk & [= <-]).
    rewrite for_zones_cons, Ho, (IH k _ Hk), omap_id_cons.
    by rewrite <- app_assoc.
Qed.

Lemma for_zones_inv (zones : list Element) (feats feats' : list Feature)
    (r : option exception) :
  for_zones float_of_string zones feats = (feats', r) →
  match r with
  | None =>
      ∃ ofs, mapM (zone_feature float_of_string) zones = Ok ofs ∧
             feats' = feats ++ omap id ofs
  | Some e =>
      ∃ before zone after ofs,
        zones = before ++ zone :: after ∧
        mapM (zone_feature float_of_string) before = Ok ofs ∧
        zone_polygons float_of_string zone = Raise e ∧
        feats' = feats ++ omap id ofs
  end.
Proof.
  revert feats. induction zones as [|zone zones IH]; intros feats.
  - simpl. intros [= <- <-]. exists []. by rewrite app_nil_r.
  - rewrite for_zones_cons.
    destruct (zone_feature float_of_string zone) as [o|e] eqn:Hzone.
    + intros H. apply IH in H. destruct r as [e|].
      * destruct H as (before & z & after & ofs & -> & Hbefore & Hz & ->).
        exists (zone :: before), z, after, (o :: ofs). split; [done |].
        split; [by rewrite mapM_cons, Hzone, bind_Ok, Hbefore |].
        split; [done |]. by rewrite omap_id_cons, <- app_assoc.
      * destruct H as (ofs & Hofs & ->). exists (o :: ofs).
        split; [by rewrite mapM_cons, Hzone, bind_Ok, Hofs |].
        by rewrite omap_id_cons, <- app_assoc.
    + intros [= <- <-]. exists [], zone, zones, [].
      split; [done |]. split; [done |].
      split; [by apply zone_feature_Raise |]. by rewrite app_nil_r.
Qed.

(** Every feature the loop appends is the feature of one of the zones. *)
Lemma for_zones_elem_of (zones : list Element) (feats feats' : list Feature)
    (r : option exception) (f : Feature) :
  for_zones float_of_string zones feats = (feats', r) → f ∈ feats' →
  f ∈ feats ∨
  ∃ zone polygons,
    zone ∈ zones ∧ zone_polygons float_of_string zone = Ok polygons ∧
    polygons ≠ [] ∧ f = make_feature (zone_name zone) polygons.
Proof.
  intros H Hf. apply for_zones_inv in H.
  assert (∀ zs (ofs : list (option Feature)),
            mapM (zone_feature float_of_string) zs = Ok ofs →
                    f ∈ omap id ofs →
                    ∃ zone polygons,
                      zone ∈ zs ∧ zone_polygons float_of_string zone = Ok polygons ∧
                      polygons ≠ [] ∧ f = make_feature (zone_name zone) polygons)
    as Hsome.
  { intros zs ofs Hofs (o & Ho & Hid)%list_elem_of_omap. simpl in Hid. subst o.
    destruct (mapM_Ok_elem_of _ _ _ _ Hofs Ho) as (zone & Hzone & Hfeat).
    apply zone_feature_Some in Hfeat as (polygons & ? & ? & ?).
    by exists zone, polygons. }
  destruct r as [e|].
  - destruct H as (before & z & after & ofs & -> & Hbefore & _ & ->).
    apply elem_of_app in Hf as [Hf | Hf]; [by left | right].
    destruct (Hsome _ _ Hbefore Hf) as (zone & polygons & Hin & ?).
    exists zone, polygons. split; [|done].
    apply elem_of_app. by left.
  - destruct H as (ofs & Hofs & ->).
    apply elem_of_app in Hf as [Hf | Hf]; [by left | right]. eauto.
Qed.

(** *** The body of the [try] statement *)

Lemma try_body_inv (url : string) (feats feats' : list Feature)
    (r : option exception) :
  try_body requests_get ET_fromstring float_of_string url feats = (feats', r) →
  (∃ e, fetch requests_get url = Raise e ∧ r = Some e ∧ feats' = feats) ∨
  (∃ response,
      fetch requests_get url = Ok response ∧
      ET_fromstring (content response) = None ∧
      r = Some ParseError ∧ feats' = feats) ∨
  (∃ response root,
      fetch requests_get url = Ok response ∧
      ET_fromstring (content response) = Some root ∧
      for_zones float_of_string (zones_of root) feats = (feats', r)).
Proof.
  unfold try_body.
  destruct (fetch requests_get url) as [response|e].
  - destruct (ET_fromstring (content response)) as [root|] eqn:Hroot.
    + intros H. right. right. by exists response, root.
    + intros [= <- <-]. right. left. by exists response.
  - intros [= <- <-]. left. by exists e.
Qed.

Lemma try_body_app (url : string) (feats : list Feature) :
  try_body requests_get ET_fromstring float_of_string url feats =
  (feats ++ contribution requests_get ET_fromstring float_of_string url,
   (try_body requests_get ET_fromstring float_of_string url []).2).
Proof.
  unfold contribution, try_body.
  destruct (fetch requests_get url) as [response|e]; simpl.
  - destruct (ET_fromstring (content response)) as [root|]; simpl.
    + apply for_zones_app.
    + by rewrite app_nil_r.
  - by rewrite app_nil_r.
Qed.

(** A resource whose document is retrieved, parsed and processed to its
    last zone adds the features of the document. *)
Lemma contribution_document (url : string) (response : Response)
    (root : Element) (feats : list Feature) :
  fetch requests_get url = Ok response →
  ET_fromstring (content response) = Some root →
  document_features float_of_string root = Ok feats →
  contribution requests_get ET_fromstring float_of_string url = feats.
Proof.
  intros Hfetch Hroot Hdoc. unfold contribution, try_body.
  rewrite Hfetch, Hroot. unfold document_features in Hdoc.
  apply bind_Ok_inv in Hdoc as (ofs & Hofs & [= <-]).
  unfold zones_of in Hofs. by rewrite (for_zones_Ok _ _ [] Hofs).
Qed.

(** *** The loop over the addresses *)

Lemma for_urls_features (xml_urls : list string) (feats : list Feature)
    (out : list message) :
  ∃ out',
    for_urls requests_get ET_fromstring float_of_string xml_urls feats out =
    (Ok (feats ++ flat_map (contribution requests_get ET_fromstring float_of_string)
                    xml_urls), out').
Proof.
  revert feats out. induction xml_urls as [|url xml_urls IH]; intros feats out.
  - exists out. simpl. by rewrite app_nil_r.
  - simpl. rewrite try_body_app.
    destruct (try_body requests_get ET_fromstring float_of_string url []).2
      as [e|].
    + destruct (except_clauses_Some url e) as [msg ->].
      destruct (IH (feats ++ contribution requests_get ET_fromstring
                              float_of_string url) (out ++ [msg])) as [out' ->].
      exists out'. by rewrite <- app_assoc.
    + destruct (IH (feats ++ contribution requests_get ET_fromstring
                              float_of_string url) out) as [out' ->].
      exists out'. by rewrite <- app_assoc.
Qed.

(** The extractor returns a collection, which holds what each resource
    adds, in the order of the addresses. *)
Lemma process_features (xml_urls : list string) :
  ∃ out,
    process_xml_to_geojson requests_get ET_fromstring float_of_string xml_urls =
    (Ok {| collection_type := "FeatureCollection";
           features := flat_map (contribution requests_get ET_fromstring
                                   float_of_string) xml_urls |}, out).
Proof.
  unfold process_xml_to_geojson.
  destruct (for_urls_features xml_urls [] [MsgFound (length xml_urls)])
    as [out ->].
  by exists out.
Qed.

(** Every feature of the collection is the feature of a zone element of
    the document at one of the addresses. *)
Lemma feature_provenance (xml_urls : list string) (fc : FeatureCollection)
    (out : list message) (f : Feature) :
  process_xml_to_geojson requests_get ET_fromstring float_of_string xml_urls
    = (Ok fc, out) →
  f ∈ features fc →
  ∃ url response root zone polygons,
    url ∈ xml_urls ∧
    fetch requests_get url = Ok response ∧
    ET_fromstring (content response) = Some root ∧
    zone ∈ zones_of root ∧
    zone_polygons float_of_string zone = Ok polygons ∧
    polygons ≠ [] ∧
    f = make_feature (zone_name zone) polygons.
Proof.
  destruct (process_features xml_urls) as [out' ->].
  intros [= <- _]. simpl.
  intros (url & Hurl & Hf)%list_elem_of_In%in_flat_map.
  apply list_elem_of_In in Hurl, Hf. unfold contribution in Hf.
  destruct (try_body requests_get ET_fromstring float_of_string url [])
    as [feats' r] eqn:Hbody. simpl in Hf.
  apply try_body_inv in Hbody
    as [(e & _ & _ & ->) | [(response & _ & _ & _ & ->) |
        (response & root & Hfetch & Hroot & Hzones)]].
  - by apply not_elem_of_nil in Hf.
  - by apply not_elem_of_nil in Hf.
  - destruct (for_zones_elem_of _ _ _ _ _ Hzones Hf)
      as [Hnil | (zone & polygons & Hzone & Hpolygons & Hne & ->)].
    + by apply not_elem_of_nil in Hnil.
    + by exists url, response, root, zone, polygons.
Qed.

(** *** The claims on the extractor *)

(** C1. When the coordinate elements of every polygon element of a zone
    parse to (latitude, longitude) pairs, the rings of the zone are those
    pairs turned into [[longitude, latitude]] positions, each ring followed
    by a copy of its first position when it is not empty and its first and
    last positions differ; these are the rings of the feature emitted for
    the zone. The corners (1,2), (3,4), (5,6) give the ring
    [[2,1],[4,3],[6,5],[2,1]]. *)
Theorem C1_ring_reordered_and_closed (zone : Element)
    (corners : list (list (float * float))) (feats : list Feature) :
  mapM (fun polygon =>
          mapM (lat_lon float_of_string)
            (select_child (qname loc "openlrCoordinates") polygon))
    (select_descendant (qname loc "openlrPolygonCorners") zone) = Ok corners →
  zone_polygons float_of_string zone = Ok (emitted_ring <$> corners) ∧
  (corners ≠ [] →
   for_zones float_of_string [zone] feats =
   (feats ++ [make_feature (zone_name zone) (emitted_ring <$> corners)], None)) ∧
  emitted_ring [(1, 2); (3, 4); (5, 6)]%float
  = [[2; 1]; [4; 3]; [6; 5]; [2; 1]]%float.
Proof.
  intros H.
  assert (zone_polygons float_of_string zone = Ok (emitted_ring <$> corners))
    as Hzone.
  { unfold zone_polygons.
    apply (mapM_Ok_compose _ _ emitted_ring _ _ polygon_ring_corners H). }
  split; [done |]. split; [|reflexivity].
  intros Hne. simpl. rewrite Hzone.
  destruct corners as [|c cs]; [done | reflexivity].
Qed.

(** C2, amended. A zone whose polygon elements are all processed has one
    ring for each polygon element, an empty ring for a polygon element
    without a coordinate element. The zone yields no feature when it has no
    polygon element, and one feature holding all these rings, the empty
    ones too, when it has at least one. *)
Theorem C2_feature_iff_polygon_element (zone : Element)
    (polygons : list (list point)) (feats : list Feature) :
  zone_polygons float_of_string zone = Ok polygons →
  let elements := select_descendant (qname loc "openlrPolygonCorners") zone in
  length polygons = length elements ∧
  (∀ i polygon,
      elements !! i = Some polygon →
      select_child (qname loc "openlrCoordinates") polygon = [] →
      polygons !! i = Some []) ∧
  (elements = [] → for_zones float_of_string [zone] feats = (feats, None)) ∧
  (elements ≠ [] →
   for_zones float_of_string [zone] feats =
   (feats ++ [make_feature (zone_name zone) polygons], None)).
Proof.
  intros H elements.
  pose proof (mapM_Ok_length _ _ _ H) as Hlen. fold elements in Hlen.
  split; [done |]. split; [|split].
  - intros i polygon Hi Hempty.
    destruct (mapM_Ok_lookup _ _ _ _ _ H Hi) as (r & Hr & Hring).
    rewrite (polygon_ring_empty _ Hempty) in Hring. by injection Hring as <-.
  - intros Hnil. simpl. rewrite H. rewrite Hnil in Hlen.
    by destruct polygons.
  - intros Hne. simpl. rewrite H.
    destruct polygons as [|r rs]; [|done].
    destruct elements; [done | discriminate Hlen].
Qed.

(** C3. In every feature of the collection, a ring that is not empty has a
    first and a last position that are the same: one value, or equal as the
    program compares them. *)
Theorem C3_emitted_rings_closed (xml_urls : list string)
    (fc : FeatureCollection) (out : list message) (f : Feature)
    (polygons : list (list point)) (r : list point) :
  process_xml_to_geojson requests_get ET_fromstring float_of_string xml_urls
    = (Ok fc, out) →
  f ∈ features fc → polygons ∈ coordinates (geometry f) → r ∈ polygons →
  r ≠ [] →
  ∃ first final,
    head r = Some first ∧ last r = Some final ∧ same_position first final.
Proof.
  intros Hrun Hf Hpolygons Hr Hne.
  destruct (feature_provenance _ _ _ _ Hrun Hf)
    as (url & response & root & zone & rings & _ & _ & _ & _ & Hrings & _ & ->).
  simpl in Hpolygons. apply list_elem_of_singleton in Hpolygons as ->.
  destruct (mapM_Ok_elem_of _ _ _ _ Hrings Hr) as (polygon & _ & Hring).
  apply polygon_ring_closed in Hring.
  destruct r as [|first rest]; [done |].
  destruct (last (first :: rest)) as [final|] eqn:Hlast.
  - exists first, final. split; [done |]. split; [done |]. by apply Hring.
  - by rewrite last_cons in Hlast; destruct (last rest).
Qed.

(** C5. Whatever happens to the other resources, the features of a
    document that is retrieved, parsed and processed to its last zone all
    appear in the collection that the extractor returns, together and in
    their order. *)
Theorem C5_failures_do_not_abort_batch (xml_urls : list string) (url : string)
    (response : Response) (root : Element) (feats : list Feature) :
  url ∈ xml_urls →
  fetch requests_get url = Ok response →
  ET_fromstring (content response) = Some root →
  document_features float_of_string root = Ok feats →
  ∃ fc out before after,
    process_xml_to_geojson requests_get ET_fromstring float_of_string xml_urls
      = (Ok fc, out) ∧
    features fc = before ++ feats ++ after ∧
    ∀ f, f ∈ feats → f ∈ features fc.
Proof.
  intros Hurl Hfetch Hroot Hdoc.
  destruct (process_features xml_urls) as [out Hrun].
  apply list_elem_of_split in Hurl as (l1 & l2 & ->).
  eexists _, out, _, _. split; [exact Hrun |].
  assert (∀ (A B : Type) (g : A → list B) l l',
            flat_map g (l ++ l') = flat_map g l ++ flat_map g l') as Happ.
  { intros A B g l l'. induction l as [|x l IH]; simpl; [done |].
    by rewrite IH, app_assoc. }
  simpl. rewrite Happ. simpl.
  rewrite (contribution_document _ _ _ _ Hfetch Hroot Hdoc).
  split; [reflexivity |].
  intros f Hf. rewrite !elem_of_app. right. by left.
Qed.

(** C6, amended. A resource that cannot be retrieved, or whose document
    is malformed, adds no feature. A resource on which the processing of a
    zone raises adds the features of the zones before that zone, and
    nothing for that zone and the zones after it. *)
Theorem C6_failing_resource_contribution (url : string)
    (feats feats' : list Feature) (e : exception) :
  try_body requests_get ET_fromstring float_of_string url feats
    = (feats', Some e) →
  (fetch requests_get url = Raise e ∧ feats' = feats) ∨
  (∃ response,
      fetch requests_get url = Ok response ∧
      ET_fromstring (content response) = None ∧
      e = ParseError ∧ feats' = feats) ∨
  (∃ response root before zone after ofs,
      fetch requests_get url = Ok response ∧
      ET_fromstring (content response) = Some root ∧
      zones_of root = before ++ zone :: after ∧
      mapM (zone_feature float_of_string) before = Ok ofs ∧
      zone_polygons float_of_string zone = Raise e ∧
      feats' = feats ++ omap id ofs).
Proof.
  intros H. apply try_body_inv in H
    as [(e' & Hfetch & [= <-] & ->) | [(response & Hfetch & Hroot & [= <-] & ->) |
        (response & root & Hfetch & Hroot & Hzones)]].
  - by left.
  - right. left. by exists response.
  - right. right. apply for_zones_inv in Hzones
      as (before & zone & after & ofs & Hsplit & Hbefore & Hzone & ->).
    by exists response, root, before, zone, after, ofs.
Qed.

(** C8. Every feature of the collection has type [Feature], a properties
    map with the key [name], and a geometry of type [MultiPolygon] whose
    coordinates are a list of one group; the group holds the rings of a
    zone element, one for each polygon element of the zone. *)
Theorem C8_feature_structure (xml_urls : list string)
    (fc : FeatureCollection) (out : list message) (f : Feature) :
  process_xml_to_geojson requests_get ET_fromstring float_of_string xml_urls
    = (Ok fc, out) →
  f ∈ features fc →
  feature_type f = "Feature" ∧
  is_Some (properties f !! "name") ∧
  geometry_type (geometry f) = "MultiPolygon" ∧
  ∃ url response root zone polygons,
    url ∈ xml_urls ∧
    fetch requests_get url = Ok response ∧
    ET_fromstring (content response) = Some root ∧
    zone ∈ zones_of root ∧
    zone_polygons float_of_string zone = Ok polygons ∧
    length polygons
      = length (select_descendant (qname loc "openlrPolygonCorners") zone) ∧
    coordinates (geometry f) = [polygons].
Proof.
  intros Hrun Hf.
  destruct (feature_provenance _ _ _ _ Hrun Hf)
    as (url & response & root & zone & polygons
        & Hurl & Hfetch & Hroot & Hzone & Hpolygons & _ & ->).
  split; [done |]. split.
  { simpl. rewrite lookup_singleton_eq. eauto. }
  split; [done |].
  exists url, response, root, zone, polygons.
  repeat (split; [done |]).
  split; [|done]. exact (mapM_Ok_length _ _ _ Hpolygons).
Qed.

(** What the loop body gives for a zone: a feature named after this zone
    and holding its rings, or nothing for a zone without polygon element. *)
Lemma zone_feature_Ok (zone : Element) (o : option Feature) :
  zone_feature float_of_string zone = Ok o →
  match o with
  | Some f =>
      (∃ polygons,
          zone_polygons float_of_string zone = Ok polygons ∧
          coordinates (geometry f) = [polygons]) ∧
      match find_name_value zone with
      | Some zone_name_elem =>
          properties f !! "name" = Some (text zone_name_elem)
      | None => properties f !! "name" = Some (Some "Unknown Zone")
      end
  | None => select_descendant (qname loc "openlrPolygonCorners") zone = []
  end.
Proof.
  destruct o as [f|].
  - intros (polygons & Hpolygons & _ & ->)%zone_feature_Some.
    split; [by exists polygons |].
    simpl. rewrite lookup_singleton_eq. unfold zone_name.
    by destruct (find_name_value zone).
  - unfold zone_feature.
    destruct (zone_polygons float_of_string zone) as [[|r rs]|e] eqn:Hzone;
      simpl; try discriminate.
    intros _. apply mapM_Ok_length in Hzone.
    by destruct (select_descendant _ zone).
Qed.

(** C9, amended. The collection holds what each resource adds, and what a
    parsed document adds is, zone by zone in document order up to the first
    zone that raises, the feature of that zone: its name is the text of the
    first name-value element of the zone when there is one, which is no text
    at all when that element is empty, and the placeholder when there is
    none; its rings are the rings of the zone. A zone adds nothing only when
    it has no polygon element. *)
Theorem C9_feature_name (xml_urls : list string)
    (fc : FeatureCollection) (out : list message) :
  process_xml_to_geojson requests_get ET_fromstring float_of_string xml_urls
    = (Ok fc, out) →
  features fc
  = flat_map (contribution requests_get ET_fromstring float_of_string) xml_urls ∧
  ∀ url response root,
    fetch requests_get url = Ok response →
    ET_fromstring (content response) = Some root →
    ∃ ofs : list (option Feature),
      contribution requests_get ET_fromstring float_of_string url
      = omap id ofs ∧
      (length ofs = length (zones_of root) ∨
       ∃ zone e, zones_of root !! length ofs = Some zone ∧
                 zone_polygons float_of_string zone = Raise e) ∧
      Forall2
        (fun zone o =>
           match o with
           | Some f =>
               (∃ polygons,
                   zone_polygons float_of_string zone = Ok polygons ∧
                   coordinates (geometry f) = [polygons]) ∧
               match find_name_value zone with
               | Some zone_name_elem =>
                   properties f !! "name" = Some (text zone_name_elem)
               | None => properties f !! "name" = Some (Some "Unknown Zone")
               end
           | None =>
               select_descendant (qname loc "openlrPolygonCorners") zone = []
           end)
        (take (length ofs) (zones_of root)) ofs.
Proof.
  intros Hrun. split.
  { destruct (process_features xml_urls) as [out' Hfeatures].
    rewrite Hfeatures in Hrun. by injection Hrun as <- _. }
  intros url response root Hfetch Hroot.
  unfold contribution, try_body. rewrite Hfetch, Hroot. fold (zones_of root).
  destruct (for_zones float_of_string (zones_of root) []) as [feats r] eqn:Hzones.
  apply for_zones_inv in Hzones. simpl.
  assert (∀ zones (ofs : list (option Feature)),
            mapM (zone_feature float_of_string) zones = Ok ofs →
            Forall2
              (fun zone o =>
                 match o with
                 | Some f =>
                     (∃ polygons,
                         zone_polygons float_of_string zone = Ok polygons ∧
                         coordinates (geometry f) = [polygons]) ∧
                     match find_name_value zone with
                     | Some zone_name_elem =>
                         properties f !! "name" = Some (text zone_name_elem)
                     | None =>
                         properties f !! "name" = Some (Some "Unknown Zone")
                     end
                 | None =>
                     select_descendant (qname loc "openlrPolygonCorners") zone = []
                 end) zones ofs) as Hall.
  { intros zones ofs Hofs. apply mapM_Ok_Forall2 in Hofs.
    induction Hofs as [|zone o zones ofs Hzone _ IH]; constructor; [|done].
    by apply zone_feature_Ok. }
  destruct r as [e|].
  - destruct Hzones as (before & zone & after & ofs & Hsplit & Hofs & Hzone & ->).
    pose proof (mapM_Ok_length _ _ _ Hofs) as Hlen.
    exists ofs. split; [done |]. rewrite Hsplit, Hlen. split.
    + right. exists zone, e. split; [|done].
      by rewrite lookup_app_r, Nat.sub_diag.
    + rewrite take_app_length. by apply Hall.
  - destruct Hzones as (ofs & Hofs & ->).
    pose proof (mapM_Ok_length _ _ _ Hofs) as Hlen.
    exists ofs. split; [done |]. split; [by left |].
    rewrite Hlen, firstn_all. by apply Hall.
Qed.

(** C10. For every sequence of addresses the extractor returns a value,
    no exception leaving it: a collection of type [FeatureCollection] with
    a list of features, which is empty when the sequence is. *)
Theorem C10_always_returns_collection (xml_urls : list string) :
  ∃ fc out,
    process_xml_to_geojson requests_get ET_fromstring float_of_string xml_urls
      = (Ok fc, out) ∧
    collection_type fc = "FeatureCollection" ∧
    process_xml_to_geojson requests_get ET_fromstring float_of_string []
      = (Ok {| collection_type := "FeatureCollection"; features := [] |},
         [MsgFound 0]).
Proof.
  destruct (process_features xml_urls) as [out Hrun].
  by eexists _, out.
Qed.

End Extractor.

(** ** The files of a run *)

Lemma endswith_String (a : ascii) (s suffix : string) :
  endswith s suffix = true → endswith (String a s) suffix = true.
Proof. intros H. rewrite endswith_unfold, H. apply orb_true_r. Qed.

(** Every path that the pattern of [clean_old_files] matches ends in
    [.xml]. *)
Lemma glob_xml_endswith (files : gmap string node) (path : string) :
  path ∈ glob_xml files → endswith path ".xml" = true.
Proof.
  unfold glob_xml. intros (n & -> & Hn)%list_elem_of_fmap.
  apply list_elem_of_In, filter_In in Hn as [_ Hn].
  apply andb_true_iff in Hn as [_ Hn].
  unfold os_path_join, OUTPUT_DIR. simpl. by repeat apply endswith_String.
Qed.

Lemma os_remove_frame (f path : string) (w w' : world) (r : option exception) :
  os_remove f w = (w', r) → f ≠ path →
  fs w' !! path = fs w !! path ∧
  (Forall removal (calls w) → Forall removal (calls w')).
Proof.
  unfold os_remove. intros H Hne.
  assert (Forall removal (calls w) → Forall removal (calls w ++ [sys_remove f]))
    as Hcalls.
  { intros Hw. apply Forall_app. split; [done |].
    apply Forall_singleton. by exists f. }
  destruct (fs w !! f) as [[data|]|]; injection H as <- <-; simpl;
    (split; [|done]); [|done..].
  by apply lookup_delete_ne.
Qed.

Lemma remove_files_frame (files : list string) (path : string)
    (w w' : world) (r : option exception) :
  remove_files files w = (w', r) → path ∉ files →
  fs w' !! path = fs w !! path ∧
  (Forall removal (calls w) → Forall removal (calls w')).
Proof.
  revert w. induction files as [|f files IH]; intros w.
  - simpl. by intros [= <- <-].
  - simpl. intros H [Hne Hrest]%not_elem_of_cons.
    destruct (os_remove f w) as [w1 [e|]] eqn:Hremove.
    + injection H as <- <-. apply (os_remove_frame _ _ _ _ _ Hremove). congruence.
    + destruct (os_remove_frame f path _ _ _ Hremove) as [Hfs Hcalls];
        [congruence |].
      destruct (IH _ H Hrest) as [Hfs' Hcalls'].
      split; [congruence | auto].
Qed.

Lemma clean_old_files_frame (path : string) (w w' : world)
    (r : option exception) :
  clean_old_files w = (w', r) → endswith path ".xml" = false →
  fs w' !! path = fs w !! path ∧
  (Forall removal (calls w) → Forall removal (calls w')).
Proof.
  unfold clean_old_files. intros H Hpath.
  destruct (remove_files (glob_xml (fs w)) w) as [w1 r1] eqn:Hremove.
  apply (remove_files_frame _ path) in Hremove.
  - by destruct r1; injection H as <- <-.
  - intros Hin%glob_xml_endswith. congruence.
Qed.

Section Run.

Context (requests_get : string -> request_error + Response)
        (BeautifulSoup : string -> PageElement)
        (ET_fromstring : string -> option Element)
        (float_of_string : string -> option float)
        (json_dump : FeatureCollection -> string).

(** C7. In a run that extracts no feature, the output file is what it
    was before the run, absent if it was absent, and the only calls on the
    file system are removals: no directory is made and no file is opened
    for writing. A run that opens a file for writing has extracted at least
    one feature. *)
Theorem C7_no_write_without_features (fs0 : gmap string node) (w : world)
    (r : option exception) :
  run requests_get BeautifulSoup ET_fromstring float_of_string json_dump fs0
    = (w, r) →
  (extracted requests_get BeautifulSoup ET_fromstring float_of_string = [] →
   fs w !! os_path_join OUTPUT_DIR GEOJSON_FILE
     = fs0 !! os_path_join OUTPUT_DIR GEOJSON_FILE ∧
   Forall removal (calls w)) ∧
  (∀ path, sys_open_w path ∈ calls w →
           extracted requests_get BeautifulSoup ET_fromstring float_of_string ≠ []).
Proof.
  intros Hrun.
  assert (extracted requests_get BeautifulSoup ET_fromstring float_of_string = [] →
          fs w !! os_path_join OUTPUT_DIR GEOJSON_FILE
            = fs0 !! os_path_join OUTPUT_DIR GEOJSON_FILE ∧
          Forall removal (calls w)) as Hframe.
  { intros Hnone. unfold run, main in Hrun.
    destruct (clean_old_files _) as [w1 r1] eqn:Hclean in Hrun.
    apply (clean_old_files_frame (os_path_join OUTPUT_DIR GEOJSON_FILE))
      in Hclean as [Hfs Hcalls]; [|reflexivity].
    simpl in Hfs, Hcalls. specialize (Hcalls (Forall_nil_2 _)).
    destruct r1 as [e|]; [by injection Hrun as <- <- |].
    unfold extracted in Hnone.
    destruct (fetch_xml_urls requests_get BeautifulSoup)
      as [[xml_urls|e] out1]; [|by injection Hrun as <- <-].
    destruct xml_urls as [|url xml_urls]; [by injection Hrun as <- <- |].
    destruct (process_xml_to_geojson _ _ _ _)
      as [[geojson_data|e] out2]; [|by injection Hrun as <- <-].
    rewrite Hnone in Hrun. by injection Hrun as <- <-. }
  split; [done |].
  intros path Hopen Hnone. destruct (Hframe Hnone) as [_ Hcalls].
  rewrite Forall_forall in Hcalls.
  by destruct (Hcalls _ Hopen) as [path' ?].
Qed.

End Run.

(** ** The claims on the sample documents *)

Lemma C1_witness :
  mapM (fun polygon =>
          mapM (lat_lon Sample.float_of_string)
            (select_child (qname loc "openlrCoordinates") polygon))
    (select_descendant (qname loc "openlrPolygonCorners") Sample.zone_centro)
    = Ok [[(1, 2); (3, 4); (5, 6)]]%float ∧
  zone_polygons Sample.float_of_string Sample.zone_centro
    = Ok [Sample.triangle_ring] ∧
  for_zones Sample.float_of_string [Sample.zone_centro] []
    = ([Sample.centro_feature], None).
Proof.
  split; [reflexivity |].
  destruct (C1_ring_reordered_and_closed Sample.float_of_string
              Sample.zone_centro [[(1, 2); (3, 4); (5, 6)]]%float [] eq_refl)
    as (Hrings & Hfeature & _).
  split; [exact Hrings | exact (Hfeature ltac:(discriminate))].
Defined.

(** C2 fails as stated: the only polygon element of this zone has no
    coordinate element, and the zone yields a feature, whose one ring is
    empty. *)
Lemma C2_counterexample :
  zone_polygons Sample.float_of_string Sample.zone_hollow = Ok [[]] ∧
  process_xml_to_geojson Sample.requests_get Sample.ET_fromstring
    Sample.float_of_string [BASE_URL +:+ "hollow.xml"]
  = (Ok {| collection_type := "FeatureCollection";
           features := [make_feature (Some "Hollow") [[]]] |},
     [MsgFound 1]).
Proof. split; reflexivity. Qed.

Lemma C2_witness :
  zone_polygons Sample.float_of_string Sample.zone_hollow = Ok [[]] ∧
  for_zones Sample.float_of_string [Sample.zone_hollow] []
    = ([make_feature (Some "Hollow") [[]]], None).
Proof.
  split; [reflexivity |].
  destruct (C2_feature_iff_polygon_element Sample.float_of_string
              Sample.zone_hollow [[]] [] eq_refl)
    as (_ & _ & _ & Hfeature).
  exact (Hfeature ltac:(discriminate)).
Defined.

Lemma C3_witness :
  process_xml_to_geojson Sample.requests_get Sample.ET_fromstring
    Sample.float_of_string [BASE_URL +:+ "centro.xml"]
  = (Ok {| collection_type := "FeatureCollection";
           features := [Sample.centro_feature] |}, [MsgFound 1]) ∧
  ∃ first final,
    head Sample.triangle_ring = Some first ∧
    last Sample.triangle_ring = Some final ∧
    same_position first final.
Proof.
  split; [reflexivity |].
  apply (C3_emitted_rings_closed Sample.requests_get Sample.ET_fromstring
           Sample.float_of_string [BASE_URL +:+ "centro.xml"]
           {| collection_type := "FeatureCollection";
              features := [Sample.centro_feature] |}
           [MsgFound 1] Sample.centro_feature [Sample.triangle_ring]
           Sample.triangle_ring).
  - reflexivity.
  - apply list_elem_of_singleton. reflexivity.
  - apply list_elem_of_singleton. reflexivity.
  - apply list_elem_of_singleton. reflexivity.
  - discriminate.
Defined.

Lemma C4_witness :
  fetch Sample.requests_get BASE_URL
    = Ok {| status_code := 200; content := "<html/>" |} ∧
  (fetch_xml_urls Sample.requests_get Sample.BeautifulSoup).1
    = Ok [BASE_URL +:+ "centro.xml"; BASE_URL +:+ "mixed.xml";
          BASE_URL +:+ "down.xml"; BASE_URL +:+ "garbled.xml"].
Proof.
  split; [reflexivity |].
  exact (proj1 (C4_lister_returns_xml_targets Sample.requests_get
                  Sample.BeautifulSoup
                  {| status_code := 200; content := "<html/>" |} eq_refl)).
Defined.

Lemma C5_witness :
  let xml_urls := [BASE_URL +:+ "gone.xml"; BASE_URL +:+ "garbled.xml";
                   BASE_URL +:+ "centro.xml"; BASE_URL +:+ "mixed.xml";
                   BASE_URL +:+ "down.xml"] in
  BASE_URL +:+ "centro.xml" ∈ xml_urls ∧
  fetch Sample.requests_get (BASE_URL +:+ "centro.xml")
    = Ok {| status_code := 200; content := "<centro/>" |} ∧
  Sample.ET_fromstring "<centro/>" = Some (Sample.publication [Sample.zone_centro]) ∧
  document_features Sample.float_of_string (Sample.publication [Sample.zone_centro])
    = Ok [Sample.centro_feature] ∧
  ∃ fc out before after,
    process_xml_to_geojson Sample.requests_get Sample.ET_fromstring
      Sample.float_of_string xml_urls = (Ok fc, out) ∧
    features fc = before ++ [Sample.centro_feature] ++ after ∧
    ∀ f, f ∈ [Sample.centro_feature] → f ∈ features fc.
Proof.
  intros xml_urls.
  assert (BASE_URL +:+ "centro.xml" ∈ xml_urls) as Hin.
  { do 2 (apply elem_of_cons; right). apply elem_of_cons. by left. }
  split; [exact Hin |]. split; [reflexivity |]. split; [reflexivity |].
  split; [reflexivity |].
  exact (C5_failures_do_not_abort_batch Sample.requests_get Sample.ET_fromstring
           Sample.float_of_string xml_urls (BASE_URL +:+ "centro.xml")
           {| status_code := 200; content := "<centro/>" |}
           (Sample.publication [Sample.zone_centro]) [Sample.centro_feature]
           Hin eq_refl eq_refl eq_refl).
Defined.

(** C6 fails as stated: the second zone of this document raises, the
    failure is reported as unexpected, and the feature of the first zone is
    in the collection. *)
Lemma C6_counterexample :
  try_body Sample.requests_get Sample.ET_fromstring Sample.float_of_string
    (BASE_URL +:+ "mixed.xml") []
  = ([Sample.centro_feature], Some AttributeError) ∧
  process_xml_to_geojson Sample.requests_get Sample.ET_fromstring
    Sample.float_of_string [BASE_URL +:+ "mixed.xml"]
  = (Ok {| collection_type := "FeatureCollection";
           features := [Sample.centro_feature] |},
     [MsgFound 1; MsgUnexpected (BASE_URL +:+ "mixed.xml") AttributeError]).
Proof. split; reflexivity. Qed.

Lemma C6_witness :
  try_body Sample.requests_get Sample.ET_fromstring Sample.float_of_string
    (BASE_URL +:+ "mixed.xml") []
  = ([Sample.centro_feature], Some AttributeError) ∧
  ∃ response root before zone after ofs,
    fetch Sample.requests_get (BASE_URL +:+ "mixed.xml") = Ok response ∧
    Sample.ET_fromstring (content response) = Some root ∧
    zones_of root = before ++ zone :: after ∧
    mapM (zone_feature Sample.float_of_string) before = Ok ofs ∧
    zone_polygons Sample.float_of_string zone = Raise AttributeError ∧
    [Sample.centro_feature] = [] ++ omap id ofs.
Proof.
  split; [reflexivity |].
  destruct (C6_failing_resource_contribution Sample.requests_get
              Sample.ET_fromstring Sample.float_of_string
              (BASE_URL +:+ "mixed.xml") [] [Sample.centro_feature]
              AttributeError eq_refl)
    as [[Hfetch _] | [(response & _ & _ & Hparse & _) | Hzone]].
  - discriminate Hfetch.
  - discriminate Hparse.
  - exact Hzone.
Defined.

Lemma C7_witness :
  let after_run :=
    {| fs := {[ "data" := Dir;
                "data/low_emission_zones.geojson" := File "{features: [...]}" ]};
       stdout := [MsgStarting; MsgCleaned; MsgFound 4; MsgNoFeatures; MsgFinished];
       calls := [sys_remove "data/old.xml"] |} in
  run Sample.requests_get_barren Sample.BeautifulSoup Sample.ET_fromstring
    Sample.float_of_string Sample.json_dump Sample.files = (after_run, None) ∧
  extracted Sample.requests_get_barren Sample.BeautifulSoup Sample.ET_fromstring
    Sample.float_of_string = [] ∧
  fs after_run !! os_path_join OUTPUT_DIR GEOJSON_FILE
    = Sample.files !! os_path_join OUTPUT_DIR GEOJSON_FILE ∧
  Forall removal (calls after_run).
Proof.
  intros after_run.
  assert (run Sample.requests_get_barren Sample.BeautifulSoup Sample.ET_fromstring
            Sample.float_of_string Sample.json_dump Sample.files
          = (after_run, None)) as Hrun by (vm_compute; reflexivity).
  split; [exact Hrun |]. split; [reflexivity |].
  exact (proj1 (C7_no_write_without_features Sample.requests_get_barren
                  Sample.BeautifulSoup Sample.ET_fromstring
                  Sample.float_of_string Sample.json_dump Sample.files
                  after_run None Hrun) eq_refl).
Defined.

Lemma C8_witness :
  process_xml_to_geojson Sample.requests_get Sample.ET_fromstring
    Sample.float_of_string [BASE_URL +:+ "centro.xml"]
  = (Ok {| collection_type := "FeatureCollection";
           features := [Sample.centro_feature] |}, [MsgFound 1]) ∧
  feature_type Sample.centro_feature = "Feature" ∧
  is_Some (properties Sample.centro_feature !! "name") ∧
  geometry_type (geometry Sample.centro_feature) = "MultiPolygon" ∧
  ∃ url response root zone polygons,
    url ∈ [BASE_URL +:+ "centro.xml"] ∧
    fetch Sample.requests_get url = Ok response ∧
    Sample.ET_fromstring (content response) = Some root ∧
    zone ∈ zones_of root ∧
    zone_polygons Sample.float_of_string zone = Ok polygons ∧
    length polygons
      = length (select_descendant (qname loc "openlrPolygonCorners") zone) ∧
    coordinates (geometry Sample.centro_feature) = [polygons].
Proof.
  split; [reflexivity |].
  apply (C8_feature_structure Sample.requests_get Sample.ET_fromstring
           Sample.float_of_string [BASE_URL +:+ "centro.xml"]
           {| collection_type := "FeatureCollection";
              features := [Sample.centro_feature] |} [MsgFound 1]).
  - reflexivity.
  - apply list_elem_of_singleton. reflexivity.
Defined.

(** C9 fails as stated: this zone has a name-value element, which is
    empty; the name of its feature is no string, neither a text nor the
    placeholder. *)
Lemma C9_counterexample :
  find_name_value Sample.zone_untitled
    = Some (mkElement (qname com "value") None []) ∧
  process_xml_to_geojson Sample.requests_get Sample.ET_fromstring
    Sample.float_of_string [BASE_URL +:+ "untitled.xml"]
  = (Ok {| collection_type := "FeatureCollection";
           features := [make_feature None [Sample.triangle_ring]] |},
     [MsgFound 1]) ∧
  properties (make_feature None [Sample.triangle_ring]) !! "name" = Some None.
Proof. repeat split; reflexivity. Qed.

Lemma C9_witness :
  let fc := {| collection_type := "FeatureCollection";
               features := [make_feature None [Sample.triangle_ring]] |} in
  process_xml_to_geojson Sample.requests_get Sample.ET_fromstring
    Sample.float_of_string [BASE_URL +:+ "untitled.xml"]
  = (Ok fc, [MsgFound 1]) ∧
  features fc
  = flat_map (contribution Sample.requests_get Sample.ET_fromstring
                Sample.float_of_string) [BASE_URL +:+ "untitled.xml"] ∧
  ∀ url response root,
    fetch Sample.requests_get url = Ok response →
    Sample.ET_fromstring (content response) = Some root →
    ∃ ofs : list (option Feature),
      contribution Sample.requests_get Sample.ET_fromstring
        Sample.float_of_string url = omap id ofs ∧
      (length ofs = length (zones_of root) ∨
       ∃ zone e, zones_of root !! length ofs = Some zone ∧
                 zone_polygons Sample.float_of_string zone = Raise e) ∧
      Forall2
        (fun zone o =>
           match o with
           | Some f =>
               (∃ polygons,
                   zone_polygons Sample.float_of_string zone = Ok polygons ∧
                   coordinates (geometry f) = [polygons]) ∧
               match find_name_value zone with
               | Some zone_name_elem =>
                   properties f !! "name" = Some (text zone_name_elem)
               | None => properties f !! "name" = Some (Some "Unknown Zone")
               end
           | None =>
               select_descendant (qname loc "openlrPolygonCorners") zone = []
           end)
        (take (length ofs) (zones_of root)) ofs.
Proof.
  intros fc. split; [reflexivity |].
  exact (C9_feature_name Sample.requests_get Sample.ET_fromstring
           Sample.float_of_string [BASE_URL +:+ "untitled.xml"] fc [MsgFound 1]
           eq_refl).
Defined.

(** * Further properties *)

(** ** The resource lister, continued *)

Lemma endswith_append (before s suffix : string) :
  endswith s suffix = true → endswith (before +:+ s) suffix = true.
Proof.
  intros H. induction before as [|a before IH]; [done |].
  simpl. by apply endswith_String.
Qed.

Lemma raise_for_status_Raise (response : Response) (e : exception) :
  raise_for_status response = Raise e → e = RequestException HTTPError.
Proof. unfold raise_for_status. case_bool_decide; congruence. Qed.

Section ListerMore.

Context (requests_get : string -> request_error + Response)
        (BeautifulSoup : string -> PageElement).

(** Retrieving a document raises request errors only. *)
Lemma fetch_Raise (url : string) (e : exception) :
  fetch requests_get url = Raise e → ∃ kind, e = RequestException kind.
Proof.
  unfold fetch. destruct (requests_get url) as [kind|response].
  - intros [= <-]. by exists kind.
  - destruct (raise_for_status response) as [[]|e'] eqn:Hstatus; simpl;
      [discriminate |].
    intros [= <-]. apply raise_for_status_Raise in Hstatus. by exists HTTPError.
Qed.

(** A document is handed on only with a status outside 400..599. *)
Lemma fetch_Ok (url : string) (response : Response) :
  fetch requests_get url = Ok response →
  requests_get url = inr response ∧ ¬ (400 ≤ status_code response < 600)%Z.
Proof.
  unfold fetch, raise_for_status.
  destruct (requests_get url) as [kind|response']; [discriminate |].
  case_bool_decide; simpl; [discriminate |]. by intros [= ->].
Qed.

(** X2. Every address that the lister returns is the base address followed
    by a target that is not empty, and ends in [.xml]. *)
Theorem X2_listed_addresses_shape (xml_urls : list string) (out : list message)
    (url : string) :
  fetch_xml_urls requests_get BeautifulSoup = (Ok xml_urls, out) →
  url ∈ xml_urls →
  ∃ href, url = BASE_URL +:+ href ∧ href ≠ "" ∧ endswith url ".xml" = true.
Proof.
  intros Hlist Hurl.
  assert (url ∈ xml_targets [] ∨
          ∃ response, url ∈ xml_targets
                              (find_all "a" (BeautifulSoup (content response))))
    as [Hnil | [response Hin]].
  { unfold fetch_xml_urls in Hlist.
    destruct (fetch requests_get BASE_URL) as [response|e] eqn:Hfetch.
    - injection Hlist as <- <-. right. exists response.
      by rewrite collect_link_fold in Hurl.
    - apply fetch_Raise in Hfetch as [kind ->].
      injection Hlist as <- <-. by left. }
  - by apply not_elem_of_nil in Hnil.
  - unfold xml_targets in Hin.
    apply list_elem_of_fmap in Hin as (href & -> & Hin).
    apply list_elem_of_In, filter_In in Hin as [_ Hsuffix].
    exists href. split; [done |]. split.
    + intros ->. discriminate Hsuffix.
    + by apply endswith_append.
Qed.

End ListerMore.

(** ** The zone extractor, continued *)

(** A loop that raises has processed the elements before the one that
    raises. *)
Lemma mapM_Raise_inv {A B} (f : A -> result B) (l : list A) (e : exception) :
  mapM f l = Raise e →
  ∃ before x after ys,
    l = before ++ x :: after ∧ mapM f before = Ok ys ∧ f x = Raise e.
Proof.
  induction l as [|x0 l IH]; [discriminate |].
  rewrite mapM_cons. destruct (f x0) as [y|e0] eqn:Hx0.
  - rewrite bind_Ok. destruct (mapM f l) as [k|e1]; [discriminate |].
    intros [= ->]. destruct (IH eq_refl) as (before & x & after & ys & -> & Hys & Hx).
    exists (x0 :: before), x, after, (y :: ys). split; [done |].
    split; [|done]. by rewrite mapM_cons, Hx0, bind_Ok, Hys.
  - intros [= ->]. by exists [], x0, l, [].
Qed.

Lemma flat_map_append {A B} (g : A -> list B) (l l' : list A) :
  flat_map g (l ++ l') = flat_map g l ++ flat_map g l'.
Proof.
  induction l as [|x l IH]; simpl; [done |]. by rewrite IH, app_assoc.
Qed.

Section ExtractorMore.

Context (requests_get : string -> request_error + Response)
        (ET_fromstring : string -> option Element)
        (float_of_string : string -> option float).

(** *** Coordinates *)

Lemma float_text_Ok (elem : option Element) (x : float) :
  float_text float_of_string elem = Ok x ↔
  ∃ e s, elem = Some e ∧ text e = Some s ∧ float_of_string s = Some x.
Proof.
  unfold float_text. split.
  - destruct elem as [e|]; [|discriminate].
    destruct (text e) as [s|] eqn:Htext; [|discriminate].
    destruct (float_of_string s) as [y|] eqn:Hs; [|discriminate].
    intros [= ->]. by exists e, s.
  - intros (e & s & -> & Htext & Hs). by rewrite Htext, Hs.
Qed.

Lemma float_text_Raise (elem : option Element) (e : exception) :
  float_text float_of_string elem = Raise e →
  (e = AttributeError ∧ elem = None) ∨
  (e = TypeError ∧ ∃ el, elem = Some el ∧ text el = None) ∨
  (e = ValueError ∧
   ∃ el s, elem = Some el ∧ text el = Some s ∧ float_of_string s = None).
Proof.
  unfold float_text. destruct elem as [el|].
  - destruct (text el) as [s|] eqn:Htext.
    + destruct (float_of_string s) eqn:Hs; [discriminate |].
      intros [= <-]. right. right. split; [done |]. by exists el, s.
    + intros [= <-]. right. left. split; [done |]. by exists el.
  - intros [= <-]. by left.
Qed.

(** X3. A coordinate element gives a (latitude, longitude) pair exactly
    when it has a latitude child and a longitude child, the first of each
    taken, both with a text that is a number. *)
Theorem X3_corner_parses (coord : Element) (lat lon : float) :
  lat_lon float_of_string coord = Ok (lat, lon) ↔
  ∃ lat_elem lon_elem lat_text lon_text,
    find_child (qname loc "latitude") coord = Some lat_elem ∧
    text lat_elem = Some lat_text ∧ float_of_string lat_text = Some lat ∧
    find_child (qname loc "longitude") coord = Some lon_elem ∧
    text lon_elem = Some lon_text ∧ float_of_string lon_text = Some lon.
Proof.
  unfold lat_lon. split.
  - intros H. apply bind_Ok_inv in H as (lat' & Hlat & H).
    apply bind_Ok_inv in H as (lon' & Hlon & [= -> ->]).
    apply float_text_Ok in Hlat as (lat_elem & lat_text & ? & ? & ?).
    apply float_text_Ok in Hlon as (lon_elem & lon_text & ? & ? & ?).
    by exists lat_elem, lon_elem, lat_text, lon_text.
  - intros (lat_elem & lon_elem & lat_text & lon_text
            & Hlat & Hlat_text & Hlat_num & Hlon & Hlon_text & Hlon_num).
    assert (float_text float_of_string
              (find_child (qname loc "latitude") coord) = Ok lat) as ->.
    { apply float_text_Ok. by exists lat_elem, lat_text. }
    assert (float_text float_of_string
              (find_child (qname loc "longitude") coord) = Ok lon) as ->.
    { apply float_text_Ok. by exists lon_elem, lon_text. }
    reflexivity.
Qed.

Lemma lat_lon_Raise (coord : Element) (e : exception) :
  lat_lon float_of_string coord = Raise e →
  ∃ child,
    (child = qname loc "latitude" ∨ child = qname loc "longitude") ∧
    ((e = AttributeError ∧ find_child child coord = None) ∨
     (e = TypeError ∧ ∃ el, find_child child coord = Some el ∧ text el = None) ∨
     (e = ValueError ∧
      ∃ el s, find_child child coord = Some el ∧ text el = Some s ∧
              float_of_string s = None)).
Proof.
  unfold lat_lon.
  destruct (float_text float_of_string (find_child (qname loc "latitude") coord))
    as [lat|e1] eqn:Hlat.
  - rewrite bind_Ok.
    destruct (float_text float_of_string (find_child (qname loc "longitude") coord))
      as [lon|e2] eqn:Hlon; [discriminate |].
    intros [= <-]. exists (qname loc "longitude").
    split; [by right |]. by apply float_text_Raise.
  - intros [= <-]. exists (qname loc "latitude").
    split; [by left |]. by apply float_text_Raise.
Qed.

(** X4. The processing of a zone raises only for a coordinate element of
    one of its polygon elements: an [AttributeError] for a missing latitude
    or longitude child, a [TypeError] for such a child without text, a
    [ValueError] for a text that is not a number. *)
Theorem X4_zone_failure_cause (zone : Element) (e : exception) :
  zone_polygons float_of_string zone = Raise e →
  ∃ polygon coord child,
    polygon ∈ select_descendant (qname loc "openlrPolygonCorners") zone ∧
    coord ∈ select_child (qname loc "openlrCoordinates") polygon ∧
    (child = qname loc "latitude" ∨ child = qname loc "longitude") ∧
    ((e = AttributeError ∧ find_child child coord = None) ∨
     (e = TypeError ∧ ∃ el, find_child child coord = Some el ∧ text el = None) ∨
     (e = ValueError ∧
      ∃ el s, find_child child coord = Some el ∧ text el = Some s ∧
              float_of_string s = None)).
Proof.
  unfold zone_polygons. intros H.
  apply mapM_Raise_inv in H as (before & polygon & after & rings & Hsplit & _ & H).
  unfold polygon_ring in H.
  destruct (mapM (position float_of_string)
              (select_child (qname loc "openlrCoordinates") polygon))
    as [coords|e'] eqn:Hcoords; [discriminate |].
  injection H as ->.
  apply mapM_Raise_inv in Hcoords as (cbefore & coord & cafter & ps & Hcsplit & _ & H).
  unfold position in H.
  destruct (lat_lon float_of_string coord) as [[lat lon]|e'] eqn:Hcoord;
    [discriminate |].
  injection H as ->. apply lat_lon_Raise in Hcoord as (child & Hchild & Hcause).
  exists polygon, coord, child.
  split; [rewrite Hsplit, elem_of_app, elem_of_cons; auto |].
  split; [rewrite Hcsplit, elem_of_app, elem_of_cons; auto |]. done.
Qed.

Lemma zone_polygons_Raise_kind (zone : Element) (e : exception) :
  zone_polygons float_of_string zone = Raise e →
  e = AttributeError ∨ e = TypeError ∨ e = ValueError.
Proof.
  unfold zone_polygons. intros H.
  apply mapM_Raise_inv in H as (_ & polygon & _ & _ & _ & _ & H).
  unfold polygon_ring in H.
  destruct (mapM (position float_of_string)
              (select_child (qname loc "openlrCoordinates") polygon))
    as [coords|e'] eqn:Hcoords; [discriminate |].
  injection H as ->.
  apply mapM_Raise_inv in Hcoords as (_ & coord & _ & _ & _ & _ & H).
  unfold position in H.
  destruct (lat_lon float_of_string coord) as [[lat lon]|e'] eqn:Hcoord;
    [discriminate |].
  injection H as ->.
  apply lat_lon_Raise in Hcoord as (child & _ & [[-> _] | [[-> _] | [-> _]]]);
    auto.
Qed.

(** *** The console of the extractor *)

Lemma for_urls_stdout (xml_urls : list string) (feats : list Feature)
    (out : list message) :
  for_urls requests_get ET_fromstring float_of_string xml_urls feats out =
  (Ok (feats ++ flat_map (contribution requests_get ET_fromstring float_of_string)
                  xml_urls),
   out ++ omap (resource_message requests_get ET_fromstring float_of_string)
            xml_urls).
Proof.
  revert feats out. induction xml_urls as [|url xml_urls IH]; intros feats out.
  - simpl. by rewrite !app_nil_r.
  - simpl. rewrite try_body_app. unfold resource_message at 1.
    destruct (try_body requests_get ET_fromstring float_of_string url []).2
      as [e|].
    + destruct (except_clauses_Some url e) as [msg ->].
      rewrite IH. by rewrite <- !app_assoc.
    + rewrite IH. by rewrite <- !app_assoc.
Qed.

(** X5. The extractor prints the number of addresses, then one message for
    each resource whose processing raises, in the order of the addresses,
    and nothing for the other resources. *)
Theorem X5_one_message_per_failure (xml_urls : list string) :
  (process_xml_to_geojson requests_get ET_fromstring float_of_string xml_urls).2
  = MsgFound (length xml_urls)
      :: omap (resource_message requests_get ET_fromstring float_of_string)
           xml_urls ∧
  ∀ url,
    is_Some (resource_message requests_get ET_fromstring float_of_string url) ↔
    is_Some (try_body requests_get ET_fromstring float_of_string url []).2.
Proof.
  split.
  - unfold process_xml_to_geojson. by rewrite for_urls_stdout.
  - intros url. unfold resource_message.
    destruct (try_body requests_get ET_fromstring float_of_string url []).2
      as [e|]; [|done].
    split; [eauto | intros _; apply except_clauses_Some].
Qed.

(** A loop over zones that meets a zone that raises stops there, with the
    features of the zones before it. *)
Lemma for_zones_Raise (before after : list Element) (zone : Element)
    (ofs : list (option Feature)) (e : exception) (feats : list Feature) :
  mapM (zone_feature float_of_string) before = Ok ofs →
  zone_polygons float_of_string zone = Raise e →
  for_zones float_of_string (before ++ zone :: after) feats
  = (feats ++ omap id ofs, Some e).
Proof.
  revert ofs feats. induction before as [|z before IH]; intros ofs feats.
  - rewrite mapM_nil. intros [= <-] Hzone. simpl.
    by rewrite Hzone, app_nil_r.
  - rewrite mapM_cons. intros H Hzone.
    apply bind_Ok_inv in H as (o & Ho & H).
    apply bind_Ok_inv in H as (k & Hk & [= <-]).
    change ((z :: before) ++ zone :: after) with (z :: (before ++ zone :: after)).
    rewrite for_zones_cons, Ho, (IH k _ Hk Hzone), omap_id_cons.
    by rewrite <- app_assoc.
Qed.

(** X6. What is printed for a resource follows from what fails: the fetch
    error for a request error; the parse error for a document that the
    parser rejects with a [ParseError]; the unexpected error, with the
    [AttributeError], [TypeError] or [ValueError] raised, for the first zone
    of a parsed document that raises; nothing for a parsed document whose
    zones are all processed. *)
Theorem X6_message_tells_failure (url : string) :
  (∀ kind,
      fetch requests_get url = Raise (RequestException kind) →
      resource_message requests_get ET_fromstring float_of_string url
      = Some (MsgErrorFetching url (RequestException kind))) ∧
  (∀ response,
      fetch requests_get url = Ok response →
      ET_fromstring (content response) = None →
      resource_message requests_get ET_fromstring float_of_string url
      = Some (MsgErrorParsing url ParseError)) ∧
  (∀ response root before zone after ofs e,
      fetch requests_get url = Ok response →
      ET_fromstring (content response) = Some root →
      zones_of root = before ++ zone :: after →
      mapM (zone_feature float_of_string) before = Ok ofs →
      zone_polygons float_of_string zone = Raise e →
      (e = AttributeError ∨ e = TypeError ∨ e = ValueError) ∧
      resource_message requests_get ET_fromstring float_of_string url
      = Some (MsgUnexpected url e)) ∧
  (∀ response root ofs,
      fetch requests_get url = Ok response →
      ET_fromstring (content response) = Some root →
      mapM (zone_feature float_of_string) (zones_of root) = Ok ofs →
      resource_message requests_get ET_fromstring float_of_string url = None).
Proof.
  split; [|split; [|split]].
  - intros kind Hfetch. unfold resource_message, try_body. by rewrite Hfetch.
  - intros response Hfetch Hroot. unfold resource_message, try_body.
    by rewrite Hfetch, Hroot.
  - intros response root before zone after ofs e Hfetch Hroot Hsplit Hofs Hzone.
    pose proof (zone_polygons_Raise_kind _ _ Hzone) as Hkind.
    split; [done |].
    unfold resource_message, try_body. rewrite Hfetch, Hroot.
    unfold zones_of in Hsplit.
    rewrite Hsplit, (for_zones_Raise _ _ _ _ _ [] Hofs Hzone). simpl.
    by destruct Hkind as [-> | [-> | ->]].
  - intros response root ofs Hfetch Hroot Hofs.
    unfold resource_message, try_body. rewrite Hfetch, Hroot.
    unfold zones_of in Hofs. by rewrite (for_zones_Ok _ _ _ [] Hofs).
Qed.

(** X7. The collection for two sequences of addresses one after the other
    holds the features for the first, then the features for the second:
    features are neither merged nor dropped across resources. *)
Theorem X7_collection_of_append (urls1 urls2 : list string)
    (fc1 fc2 : FeatureCollection) (out1 out2 : list message) :
  process_xml_to_geojson requests_get ET_fromstring float_of_string urls1
    = (Ok fc1, out1) →
  process_xml_to_geojson requests_get ET_fromstring float_of_string urls2
    = (Ok fc2, out2) →
  ∃ out,
    process_xml_to_geojson requests_get ET_fromstring float_of_string
      (urls1 ++ urls2)
    = (Ok {| collection_type := "FeatureCollection";
             features := features fc1 ++ features fc2 |}, out).
Proof.
  unfold process_xml_to_geojson. rewrite !for_urls_stdout. simpl.
  intros [= <- _] [= <- _]. simpl. rewrite flat_map_append. eauto.
Qed.

(** *** The shape of the rings *)

Lemma closing_point_first (coords : list point) (p : point) :
  closing_point coords = Some p → head coords = Some p ∧ (2 ≤ length coords)%nat.
Proof.
  destruct coords as [|first [|second rest]]; simpl; try discriminate.
  destruct (last (second :: rest)) as [final|]; [|discriminate].
  destruct (point_eq first final); [discriminate |].
  intros [= <-]. split; [done | lia].
Qed.

Lemma close_ring_elem_of (coords : list point) (p : point) :
  p ∈ close_ring coords → p ∈ coords.
Proof.
  rewrite close_ring_closing_point, elem_of_app. intros [H | H]; [done |].
  destruct (closing_point coords) as [q|] eqn:Hq; simpl in H.
  - apply list_elem_of_singleton in H as ->.
    apply closing_point_first in Hq as [Hq _]. by apply head_Some_elem_of.
  - by apply not_elem_of_nil in H.
Qed.

Lemma position_pair (coord : Element) (p : point) :
  position float_of_string coord = Ok p → ∃ lon lat, p = [lon; lat].
Proof.
  unfold position.
  destruct (lat_lon float_of_string coord) as [[lat lon]|e]; [|discriminate].
  intros [= <-]. by exists lon, lat.
Qed.

(** X8. Every position of every ring of every feature of the collection is
    a list of exactly two numbers. *)
Theorem X8_positions_have_two_numbers (xml_urls : list string)
    (fc : FeatureCollection) (out : list message) (f : Feature)
    (polygons : list (list point)) (r : list point) (p : point) :
  process_xml_to_geojson requests_get ET_fromstring float_of_string xml_urls
    = (Ok fc, out) →
  f ∈ features fc → polygons ∈ coordinates (geometry f) → r ∈ polygons →
  p ∈ r →
  ∃ lon lat, p = [lon; lat].
Proof.
  intros Hrun Hf Hpolygons Hr Hp.
  destruct (feature_provenance _ _ _ _ _ _ _ Hrun Hf)
    as (url & response & root & zone & rings & _ & _ & _ & _ & Hrings & _ & ->).
  simpl in Hpolygons. apply list_elem_of_singleton in Hpolygons as ->.
  destruct (mapM_Ok_elem_of _ _ _ _ Hrings Hr) as (polygon & _ & Hring).
  unfold polygon_ring in Hring.
  apply bind_Ok_inv in Hring as (coords & Hcoords & [= <-]).
  apply close_ring_elem_of in Hp.
  destruct (mapM_Ok_elem_of _ _ _ _ Hcoords Hp) as (coord & _ & Hcoord).
  by apply position_pair in Hcoord.
Qed.

(** X9. The ring of a polygon element has one position for each coordinate
    element, and one more, the closing point, only when there are at least
    two coordinate elements. *)
Theorem X9_ring_length (polygon : Element) (r : list point) :
  polygon_ring float_of_string polygon = Ok r →
  let n := length (select_child (qname loc "openlrCoordinates") polygon) in
  length r = n ∨ ((2 ≤ n)%nat ∧ length r = S n).
Proof.
  intros H n. unfold polygon_ring in H.
  apply bind_Ok_inv in H as (coords & Hcoords & [= <-]).
  apply mapM_Ok_length in Hcoords. fold n in Hcoords.
  rewrite close_ring_closing_point, length_app, Hcoords.
  destruct (closing_point coords) as [p|] eqn:Hp; simpl.
  - apply closing_point_first in Hp as [_ Hlen]. right. lia.
  - left. lia.
Qed.

End ExtractorMore.

(** ** The files of a run, continued *)

Lemma strip_prefix_Some (prefix s rest : string) :
  strip_prefix prefix s = Some rest ↔ s = prefix +:+ rest.
Proof.
  revert s. induction prefix as [|a prefix IH]; intros s; simpl.
  - split; [by intros [= ->] | by intros ->].
  - destruct s as [|b s]; [split; discriminate |].
    destruct (Ascii.eqb_spec a b) as [<-|Hne].
    + rewrite IH. split; [by intros -> | by intros [= ->]].
    + split; [discriminate | intros [= -> _]; done].
Qed.

Lemma os_path_join_inj (n1 n2 : string) :
  os_path_join OUTPUT_DIR n1 = os_path_join OUTPUT_DIR n2 → n1 = n2.
Proof. cbv [os_path_join OUTPUT_DIR String.append]. by intros [= ->]. Qed.

(** The entries of the output directory are the paths made of the
    directory and a name without a separator. *)
Lemma entry_name_Some (path n : string) :
  entry_name OUTPUT_DIR path = Some n ↔
  path = os_path_join OUTPUT_DIR n ∧
  str_truthy n = true ∧ contains_char "/" n = false.
Proof.
  unfold entry_name.
  destruct (strip_prefix (OUTPUT_DIR +:+ "/") path) as [m|] eqn:Hstrip.
  - apply strip_prefix_Some in Hstrip.
    change ((OUTPUT_DIR +:+ "/") +:+ m) with (os_path_join OUTPUT_DIR m) in Hstrip.
    subst path.
    destruct (str_truthy m) eqn:Htruthy; simpl.
    + destruct (contains_char "/" m) eqn:Hslash; simpl.
      * split; [discriminate |].
        intros (<-%os_path_join_inj & _ & Hn). congruence.
      * split; [by intros [= <-] | by intros (<-%os_path_join_inj & _)].
    + split; [discriminate |].
      intros (<-%os_path_join_inj & Hn & _). congruence.
  - split; [discriminate |]. intros (-> & _).
    assert (strip_prefix (OUTPUT_DIR +:+ "/") (os_path_join OUTPUT_DIR n) = Some n)
      as Hn by by apply strip_prefix_Some.
    congruence.
Qed.

Lemma os_path_join_ne_dir (n : string) : os_path_join OUTPUT_DIR n ≠ OUTPUT_DIR.
Proof. discriminate. Qed.

(** The paths that the pattern of [clean_old_files] matches are the
    [.xml] entries of the output directory that exist, when the directory
    is one. *)
Lemma glob_xml_elem_of (files : gmap string node) (path : string) :
  path ∈ glob_xml files ↔
  files !! OUTPUT_DIR = Some Dir ∧ is_Some (files !! path) ∧ xml_entry path.
Proof.
  unfold glob_xml, listdir, xml_entry. rewrite list_elem_of_fmap. split.
  - intros (n & -> & Hn).
    apply list_elem_of_In, filter_In in Hn as [Hn Hkeep].
    apply andb_true_iff in Hkeep as [Hhidden Hsuffix].
    apply negb_true_iff in Hhidden.
    destruct (files !! OUTPUT_DIR) as [[data|]|] eqn:Hdir;
      try by destruct Hn.
    apply list_elem_of_In, list_elem_of_omap in Hn as (p & Hp & Hname).
    apply list_elem_of_fmap in Hp as ([p' x] & -> & Hp).
    apply elem_of_map_to_list in Hp. simpl in Hname.
    apply entry_name_Some in Hname as (-> & Htruthy & Hslash).
    split; [done |]. split; [by exists x |]. by exists n.
  - intros (Hdir & [x Hx] & n & -> & Htruthy & Hslash & Hhidden & Hsuffix).
    exists n. split; [done |]. rewrite Hdir.
    apply list_elem_of_In, filter_In. split.
    + apply list_elem_of_In, list_elem_of_omap.
      exists (os_path_join OUTPUT_DIR n). split.
      * apply list_elem_of_fmap. exists (os_path_join OUTPUT_DIR n, x).
        split; [done |]. by apply elem_of_map_to_list.
      * by apply entry_name_Some.
    + by rewrite Hhidden, Hsuffix.
Qed.

(** *** Removing the stale documents *)

Lemma os_remove_None (f : string) (w w' : world) :
  os_remove f w = (w', None) →
  (∃ data, fs w !! f = Some (File data)) ∧
  w' = {| fs := delete f (fs w); stdout := stdout w;
          calls := calls w ++ [sys_remove f] |}.
Proof.
  unfold os_remove. destruct (fs w !! f) as [[data|]|]; try discriminate.
  intros [= <-]. split; [by exists data | done].
Qed.

(** A loop of removals that runs to its end has removed its paths and
    touched nothing else. *)
Lemma remove_files_None (files : list string) (w w' : world) :
  remove_files files w = (w', None) →
  (∀ path, fs w' !! path
           = if bool_decide (path ∈ files) then None else fs w !! path) ∧
  stdout w' = stdout w ∧
  calls w' = calls w ++ (sys_remove <$> files).
Proof.
  revert w. induction files as [|f files IH]; intros w.
  - simpl. intros [= <-]. split; [done |]. by rewrite app_nil_r.
  - simpl. destruct (os_remove f w) as [w1 [e|]] eqn:Hremove; [discriminate |].
    apply os_remove_None in Hremove as [_ ->].
    intros (Hfs & Hout & Hcalls)%IH. simpl in *.
    split; [|split; [done | by rewrite Hcalls, <- app_assoc]].
    intros path. rewrite Hfs.
    destruct (decide (path = f)) as [->|Hne].
    + rewrite (bool_decide_eq_true_2 (f ∈ f :: files)) by (apply elem_of_cons; auto).
      case_bool_decide; [done | apply lookup_delete_eq].
    + rewrite lookup_delete_ne by done.
      rewrite (bool_decide_ext (path ∈ f :: files) (path ∈ files)); [done |].
      rewrite elem_of_cons. split; [by intros [? | ?] | by right].
Qed.

(** Once the matched paths are removed, the pattern matches nothing. *)
Lemma remove_files_glob_empty (w w1 : world) :
  remove_files (glob_xml (fs w)) w = (w1, None) → glob_xml (fs w1) = [].
Proof.
  intros (Hfs & _ & _)%remove_files_None.
  destruct (glob_xml (fs w1)) as [|path rest] eqn:Hglob; [done |].
  assert (path ∈ glob_xml (fs w1)) as Hpath
    by (rewrite Hglob; apply elem_of_cons; auto).
  apply glob_xml_elem_of in Hpath as (Hdir & Hsome & Hentry).
  assert (path ∈ glob_xml (fs w)) as Hbefore.
  { apply glob_xml_elem_of. rewrite !Hfs in *.
    repeat case_bool_decide; try done; by destruct Hsome. }
  rewrite Hfs, bool_decide_eq_true_2 in Hsome by done. by destruct Hsome.
Qed.

(** X10. When [clean_old_files] returns, the [.xml] entries of the output
    directory are gone, none is left for the pattern to match, every other
    path is as it was, and the only calls made are the removals of these
    entries. *)
Theorem X10_clean_removes_xml_entries (w w' : world) :
  clean_old_files w = (w', None) →
  glob_xml (fs w') = [] ∧
  (∀ path, path ∈ glob_xml (fs w) → fs w' !! path = None) ∧
  (∀ path, path ∉ glob_xml (fs w) → fs w' !! path = fs w !! path) ∧
  calls w' = calls w ++ (sys_remove <$> glob_xml (fs w)) ∧
  stdout w' = stdout w ++ [MsgCleaned].
Proof.
  unfold clean_old_files.
  destruct (remove_files (glob_xml (fs w)) w) as [w1 [e|]] eqn:Hremove;
    [discriminate |].
  intros [= <-]. simpl.
  split; [by apply (remove_files_glob_empty w) |].
  apply remove_files_None in Hremove as (Hfs & Hout & Hcalls).
  rewrite Hout, Hcalls.
  split; [|split; [|done]].
  - intros path Hpath. by rewrite Hfs, bool_decide_eq_true_2.
  - intros path Hpath. by rewrite Hfs, bool_decide_eq_false_2.
Qed.

(** X11. Cleaning a second time removes nothing: it makes no call and
    leaves the files as the first cleaning left them. *)
Theorem X11_clean_twice (w w1 : world) :
  clean_old_files w = (w1, None) →
  clean_old_files w1 = (print MsgCleaned w1, None).
Proof.
  unfold clean_old_files at 1.
  destruct (remove_files (glob_xml (fs w)) w) as [w0 [e|]] eqn:Hremove;
    [discriminate |].
  intros [= <-]. apply remove_files_glob_empty in Hremove.
  unfold clean_old_files. simpl. by rewrite Hremove.
Qed.

Lemma remove_files_keeps (files : list string) (path : string)
    (w w' : world) (r : option exception) :
  remove_files files w = (w', r) →
  stdout w' = stdout w ∧ (fs w !! path = Some Dir → fs w' !! path = Some Dir).
Proof.
  revert w. induction files as [|f files IH]; intros w.
  - simpl. by intros [= <- <-].
  - simpl. destruct (os_remove f w) as [w1 r1] eqn:Hremove.
    assert (stdout w1 = stdout w ∧
            (fs w !! path = Some Dir → fs w1 !! path = Some Dir)) as [Hout Hdir].
    { unfold os_remove in Hremove.
      destruct (fs w !! f) as [[data|]|] eqn:Hf; injection Hremove as <- <-;
        simpl; (split; [done |]); try done.
      intros Hpath. rewrite lookup_delete_ne; [done |]. intros ->. congruence. }
    destruct r1 as [e|].
    + by intros [= <- <-].
    + intros [Hout' Hdir']%IH. split; [congruence | auto].
Qed.

(** X12. [clean_old_files] does not return when an [.xml] entry of the
    output directory is itself a directory: it raises, the directory stays,
    and the clean-up message is not printed. *)
Theorem X12_clean_stops_at_directory (w : world) (path : string) :
  fs w !! OUTPUT_DIR = Some Dir → xml_entry path → fs w !! path = Some Dir →
  ∃ w' e,
    clean_old_files w = (w', Some e) ∧
    fs w' !! path = Some Dir ∧ stdout w' = stdout w.
Proof.
  intros Hdir Hentry Hpath.
  assert (path ∈ glob_xml (fs w)) as Hin.
  { apply glob_xml_elem_of. by rewrite Hpath. }
  unfold clean_old_files.
  destruct (remove_files (glob_xml (fs w)) w) as [w1 r] eqn:Hremove.
  destruct (remove_files_keeps _ path _ _ _ Hremove) as [Hout Hkept].
  destruct r as [e|].
  - exists w1, e. auto.
  - apply remove_files_None in Hremove as (Hfs & _ & _).
    specialize (Hkept Hpath).
    rewrite Hfs, bool_decide_eq_true_2 in Hkept by done. discriminate.
Qed.

Lemma clean_old_files_outside (path : string) (w w' : world)
    (r : option exception) :
  clean_old_files w = (w', r) → ¬ xml_entry path →
  fs w' !! path = fs w !! path.
Proof.
  unfold clean_old_files. intros H Hpath.
  destruct (remove_files (glob_xml (fs w)) w) as [w1 r1] eqn:Hremove.
  apply (remove_files_frame _ path) in Hremove as [Hfs _].
  - by destruct r1; injection H as <- <-.
  - by intros (_ & _ & ?)%glob_xml_elem_of.
Qed.

(** *** Writing the collection *)

Section RunMore.

Context (requests_get : string -> request_error + Response)
        (BeautifulSoup : string -> PageElement)
        (ET_fromstring : string -> option Element)
        (float_of_string : string -> option float)
        (json_dump : FeatureCollection -> string).

Lemma save_geojson_outside (data : FeatureCollection) (filename path : string)
    (w w' : world) (r : option exception) :
  save_geojson json_dump data filename w = (w', r) →
  path ≠ OUTPUT_DIR → path ≠ os_path_join OUTPUT_DIR filename →
  fs w' !! path = fs w !! path.
Proof.
  unfold save_geojson, open_w, os_path_exists, os_makedirs.
  intros H Hdir Hfile.
  case_bool_decide as Hexists; simpl in H.
  - destruct (fs w !! OUTPUT_DIR) as [[d|]|];
      [| destruct (fs w !! os_path_join OUTPUT_DIR filename) as [[d|]|] |];
      injection H as <- <-; simpl; by rewrite ?lookup_insert_ne.
  - rewrite lookup_insert_eq in H.
    rewrite lookup_insert_ne in H by (symmetry; apply os_path_join_ne_dir).
    destruct (fs w !! os_path_join OUTPUT_DIR filename) as [[d|]|];
      injection H as <- <-; simpl; by rewrite ?lookup_insert_ne.
Qed.

Lemma save_geojson_None (data : FeatureCollection) (filename : string)
    (w w' : world) :
  save_geojson json_dump data filename w = (w', None) →
  ∃ w1,
    (w1 = w ∨ (fs w !! OUTPUT_DIR = None ∧ w1 = os_makedirs OUTPUT_DIR w)) ∧
    fs w1 !! OUTPUT_DIR = Some Dir ∧
    fs w1 !! os_path_join OUTPUT_DIR filename ≠ Some Dir ∧
    w' = {| fs := <[os_path_join OUTPUT_DIR filename := File (json_dump data)]>
                    (fs w1);
            stdout := stdout w1 ++ [MsgSaved (os_path_join OUTPUT_DIR filename)];
            calls := calls w1 ++ [sys_open_w (os_path_join OUTPUT_DIR filename)] |}.
Proof.
  unfold save_geojson.
  set (w1 := if os_path_exists OUTPUT_DIR w then w else os_makedirs OUTPUT_DIR w).
  assert (w1 = w ∨ (fs w !! OUTPUT_DIR = None ∧ w1 = os_makedirs OUTPUT_DIR w))
    as Hw1.
  { unfold w1, os_path_exists. case_bool_decide as Hexists; [by left | right].
    split; [|done]. by apply eq_None_not_Some. }
  clearbody w1. unfold open_w.
  destruct (fs w1 !! OUTPUT_DIR) as [[d|]|] eqn:Hdir; try discriminate.
  destruct (fs w1 !! os_path_join OUTPUT_DIR filename) as [[d|]|] eqn:Hfile;
    try discriminate; intros [= <-]; exists w1; by rewrite Hfile.
Qed.

(** X13. When [save_geojson], called with a simple file name, returns, the
    output directory is a directory, the file of that name in it holds the
    serialized collection, every other path is as it was, and the path
    written is printed. *)
Theorem X13_save_writes_collection (data : FeatureCollection)
    (filename : string) (w w' : world) :
  simple_name filename →
  save_geojson json_dump data filename w = (w', None) →
  fs w' !! OUTPUT_DIR = Some Dir ∧
  fs w' !! os_path_join OUTPUT_DIR filename = Some (File (json_dump data)) ∧
  (∀ path, path ≠ OUTPUT_DIR → path ≠ os_path_join OUTPUT_DIR filename →
           fs w' !! path = fs w !! path) ∧
  stdout w' = stdout w ++ [MsgSaved (os_path_join OUTPUT_DIR filename)].
Proof.
  intros _ H.
  pose proof (fun path => save_geojson_outside _ _ path _ _ _ H) as Houtside.
  apply save_geojson_None in H as (w1 & Hw1 & Hdir & _ & ->). simpl.
  split; [|split; [|split]].
  - rewrite lookup_insert_ne; [done |]. apply os_path_join_ne_dir.
  - apply lookup_insert_eq.
  - intros path. apply Houtside.
  - by destruct Hw1 as [-> | [_ ->]].
Qed.


(** *** The whole run *)

(** The script reaches the writing step with the collection of the
    features extracted, and only when there is at least one. *)
Lemma main_cases (w0 : world) :
  let main_w0 := main requests_get BeautifulSoup ET_fromstring float_of_string
                   json_dump w0 in
  let feats := extracted requests_get BeautifulSoup ET_fromstring
                 float_of_string in
  ∃ w1 r1,
    clean_old_files (print MsgStarting w0) = (w1, r1) ∧
    match r1 with
    | Some e => main_w0 = (w1, Some e)
    | None =>
        ∃ out,
          match feats with
          | [] =>
              ∃ m, main_w0 = (print MsgFinished (print m (print_all out w1)), None)
          | _ :: _ =>
              match save_geojson json_dump
                      {| collection_type := "FeatureCollection";
                         features := feats |}
                      GEOJSON_FILE (print_all out w1) with
              | (w2, None) => main_w0 = (print MsgFinished w2, None)
              | (w2, Some e) => main_w0 = (w2, Some e)
              end
          end
    end.
Proof.
  intros main_w0 feats. unfold main_w0, main, feats, extracted.
  destruct (clean_old_files (print MsgStarting w0)) as [w1 [e|]];
    exists w1; [by exists (Some e) | exists None]. split; [done |].
  unfold fetch_xml_urls.
  destruct (fetch requests_get BASE_URL) as [response|e] eqn:Hfetch.
  - cbv beta iota zeta.
    destruct (fold_left collect_link _ []) as [|url xml_urls] eqn:Hurls.
    + destruct (process_features requests_get ET_fromstring float_of_string [])
        as [out ->]. simpl. exists []. by exists MsgNoXml.
    + destruct (process_features requests_get ET_fromstring float_of_string
                  (url :: xml_urls)) as [out ->].
      cbn [features fst snd].
      destruct (flat_map _ (url :: xml_urls)) as [|f feats'].
      * exists ([] ++ out). exists MsgNoFeatures.
        unfold print_all, print. simpl. by rewrite <- !app_assoc.
      * exists ([] ++ out).
        replace (print_all out (print_all [] w1)) with (print_all ([] ++ out) w1)
          by (unfold print_all; simpl; by rewrite app_nil_r).
        by destruct (save_geojson _ _ _ _) as [w2 [e|]].
  - apply fetch_Raise in Hfetch as [kind ->]. cbv beta iota zeta delta [isinstance].
    destruct (process_features requests_get ET_fromstring float_of_string [])
      as [out ->]. simpl.
    exists [MsgErrorUrlList (RequestException kind)]. by exists MsgNoXml.
Qed.

(** X15. A run changes no path other than the output directory, the
    output file and the [.xml] entries of the output directory, however it
    ends. *)
Theorem X15_run_touches_only_its_paths (fs0 : gmap string node) (w : world)
    (r : option exception) (path : string) :
  run requests_get BeautifulSoup ET_fromstring float_of_string json_dump fs0
    = (w, r) →
  path ≠ OUTPUT_DIR → path ≠ os_path_join OUTPUT_DIR GEOJSON_FILE →
  ¬ xml_entry path →
  fs w !! path = fs0 !! path.
Proof.
  unfold run. intros Hrun Hdir Hfile Hentry.
  destruct (main_cases {| fs := fs0; stdout := []; calls := [] |})
    as (w1 & r1 & Hclean & Hmain).
  apply (clean_old_files_outside path) in Hclean; [|done]. simpl in Hclean.
  rewrite Hrun in Hmain. destruct r1 as [e|].
  - by injection Hmain as -> ->.
  - destruct Hmain as [out Hmain].
    destruct (extracted _ _ _ _) as [|f feats].
    + destruct Hmain as [m [= -> ->]]. done.
    + destruct (save_geojson _ _ _ _) as [w2 r2] eqn:Hsave.
      apply (save_geojson_outside _ _ path) in Hsave; [|done..].
      simpl in Hsave. destruct r2; injection Hmain as -> ->; simpl; congruence.
Qed.

(** X17. A run that extracts at least one feature and ends without an
    exception leaves, in the output file, the serialized collection of the
    features extracted; the last thing it prints is that it has finished. *)
Theorem X17_run_writes_the_collection (fs0 : gmap string node) (w : world) :
  run requests_get BeautifulSoup ET_fromstring float_of_string json_dump fs0
    = (w, None) →
  extracted requests_get BeautifulSoup ET_fromstring float_of_string ≠ [] →
  fs w !! os_path_join OUTPUT_DIR GEOJSON_FILE
  = Some (File (json_dump
                  {| collection_type := "FeatureCollection";
                     features := extracted requests_get BeautifulSoup
                                   ET_fromstring float_of_string |})) ∧
  fs w !! OUTPUT_DIR = Some Dir ∧
  sys_open_w (os_path_join OUTPUT_DIR GEOJSON_FILE) ∈ calls w ∧
  last (stdout w) = Some MsgFinished.
Proof.
  unfold run. intros Hrun Hfeats.
  destruct (main_cases {| fs := fs0; stdout := []; calls := [] |})
    as (w1 & r1 & Hclean & Hmain).
  rewrite Hrun in Hmain. destruct r1 as [e|]; [discriminate |].
  destruct Hmain as [out Hmain].
  destruct (extracted _ _ _ _) as [|f feats]; [done |].
  destruct (save_geojson _ _ _ _) as [w2 [e2|]] eqn:Hsave; [discriminate |].
  injection Hmain as ->.
  apply save_geojson_None in Hsave as (w3 & _ & Hdir & _ & ->).
  simpl. split; [apply lookup_insert_eq |].
  split; [by rewrite lookup_insert_ne by apply os_path_join_ne_dir |].
  split; [|apply last_snoc].
  apply elem_of_app. right. by apply list_elem_of_singleton.
Qed.

End RunMore.

(** ** The further properties on the sample documents *)

Lemma X2_witness :
  let xml_urls := [BASE_URL +:+ "centro.xml"; BASE_URL +:+ "mixed.xml";
                   BASE_URL +:+ "down.xml"; BASE_URL +:+ "garbled.xml"] in
  fetch_xml_urls Sample.requests_get Sample.BeautifulSoup = (Ok xml_urls, []) ∧
  BASE_URL +:+ "mixed.xml" ∈ xml_urls ∧
  ∃ href, BASE_URL +:+ "mixed.xml" = BASE_URL +:+ href ∧ href ≠ "" ∧
          endswith (BASE_URL +:+ "mixed.xml") ".xml" = true.
Proof.
  intros xml_urls.
  assert (BASE_URL +:+ "mixed.xml" ∈ xml_urls) as Hin.
  { apply elem_of_cons; right. apply elem_of_cons. by left. }
  split; [reflexivity |]. split; [exact Hin |].
  exact (X2_listed_addresses_shape Sample.requests_get Sample.BeautifulSoup
           xml_urls [] (BASE_URL +:+ "mixed.xml") eq_refl Hin).
Defined.

Lemma X4_witness :
  zone_polygons Sample.float_of_string Sample.zone_broken = Raise AttributeError ∧
  ∃ polygon coord child,
    polygon ∈ select_descendant (qname loc "openlrPolygonCorners")
                Sample.zone_broken ∧
    coord ∈ select_child (qname loc "openlrCoordinates") polygon ∧
    (child = qname loc "latitude" ∨ child = qname loc "longitude") ∧
    ((AttributeError = AttributeError ∧ find_child child coord = None) ∨
     (AttributeError = TypeError ∧
      ∃ el, find_child child coord = Some el ∧ text el = None) ∨
     (AttributeError = ValueError ∧
      ∃ el s, find_child child coord = Some el ∧ text el = Some s ∧
              Sample.float_of_string s = None)).
Proof.
  split; [reflexivity |].
  exact (X4_zone_failure_cause Sample.float_of_string Sample.zone_broken
           AttributeError eq_refl).
Defined.

Lemma X6_witness :
  let response := {| status_code := 200; content := "<mixed/>" |} in
  let root := Sample.publication
                [Sample.zone_centro; Sample.zone_broken; Sample.zone_anonymous] in
  fetch Sample.requests_get (BASE_URL +:+ "mixed.xml") = Ok response ∧
  Sample.ET_fromstring (content response) = Some root ∧
  zones_of root
  = [Sample.zone_centro] ++ Sample.zone_broken :: [Sample.zone_anonymous] ∧
  mapM (zone_feature Sample.float_of_string) [Sample.zone_centro]
  = Ok [Some Sample.centro_feature] ∧
  zone_polygons Sample.float_of_string Sample.zone_broken = Raise AttributeError ∧
  (AttributeError = AttributeError ∨ AttributeError = TypeError ∨
   AttributeError = ValueError) ∧
  resource_message Sample.requests_get Sample.ET_fromstring
    Sample.float_of_string (BASE_URL +:+ "mixed.xml")
  = Some (MsgUnexpected (BASE_URL +:+ "mixed.xml") AttributeError).
Proof.
  intros response root.
  repeat (split; [reflexivity |]).
  destruct (X6_message_tells_failure Sample.requests_get Sample.ET_fromstring
              Sample.float_of_string (BASE_URL +:+ "mixed.xml"))
    as (_ & _ & Hzone & _).
  exact (Hzone response root [Sample.zone_centro] Sample.zone_broken
           [Sample.zone_anonymous] [Some Sample.centro_feature] AttributeError
           eq_refl eq_refl eq_refl eq_refl eq_refl).
Defined.

Lemma X7_witness :
  process_xml_to_geojson Sample.requests_get Sample.ET_fromstring
    Sample.float_of_string [BASE_URL +:+ "centro.xml"]
  = (Ok {| collection_type := "FeatureCollection";
           features := [Sample.centro_feature] |}, [MsgFound 1]) ∧
  process_xml_to_geojson Sample.requests_get Sample.ET_fromstring
    Sample.float_of_string [BASE_URL +:+ "gone.xml"; BASE_URL +:+ "hollow.xml"]
  = (Ok {| collection_type := "FeatureCollection";
           features := [make_feature (Some "Hollow") [[]]] |},
     [MsgFound 2;
      MsgErrorFetching (BASE_URL +:+ "gone.xml") (RequestException HTTPError)]) ∧
  ∃ out,
    process_xml_to_geojson Sample.requests_get Sample.ET_fromstring
      Sample.float_of_string
      ([BASE_URL +:+ "centro.xml"]
       ++ [BASE_URL +:+ "gone.xml"; BASE_URL +:+ "hollow.xml"])
    = (Ok {| collection_type := "FeatureCollection";
             features := [Sample.centro_feature]
                         ++ [make_feature (Some "Hollow") [[]]] |}, out).
Proof.
  split; [reflexivity |]. split; [reflexivity |].
  exact (X7_collection_of_append Sample.requests_get Sample.ET_fromstring
           Sample.float_of_string [BASE_URL +:+ "centro.xml"]
           [BASE_URL +:+ "gone.xml"; BASE_URL +:+ "hollow.xml"]
           {| collection_type := "FeatureCollection";
              features := [Sample.centro_feature] |}
           {| collection_type := "FeatureCollection";
              features := [make_feature (Some "Hollow") [[]]] |}
           [MsgFound 1]
           [MsgFound 2;
            MsgErrorFetching (BASE_URL +:+ "gone.xml") (RequestException HTTPError)]
           eq_refl eq_refl).
Defined.

Lemma X8_witness :
  process_xml_to_geojson Sample.requests_get Sample.ET_fromstring
    Sample.float_of_string [BASE_URL +:+ "centro.xml"]
  = (Ok {| collection_type := "FeatureCollection";
           features := [Sample.centro_feature] |}, [MsgFound 1]) ∧
  ∃ lon lat, [4; 3]%float = [lon; lat].
Proof.
  split; [reflexivity |].
  apply (X8_positions_have_two_numbers Sample.requests_get Sample.ET_fromstring
           Sample.float_of_string [BASE_URL +:+ "centro.xml"]
           {| collection_type := "FeatureCollection";
              features := [Sample.centro_feature] |}
           [MsgFound 1] Sample.centro_feature [Sample.triangle_ring]
           Sample.triangle_ring).
  - reflexivity.
  - apply list_elem_of_singleton. reflexivity.
  - apply list_elem_of_singleton. reflexivity.
  - apply list_elem_of_singleton. reflexivity.
  - apply elem_of_cons; right. apply elem_of_cons. by left.
Defined.

Lemma X9_witness :
  polygon_ring Sample.float_of_string Sample.triangle = Ok Sample.triangle_ring ∧
  (length Sample.triangle_ring = 3 ∨
   ((2 ≤ 3)%nat ∧ length Sample.triangle_ring = 4)).
Proof.
  split; [reflexivity |].
  exact (X9_ring_length Sample.float_of_string Sample.triangle
           Sample.triangle_ring eq_refl).
Defined.

Lemma X10_witness :
  let w := Sample.fresh Sample.files in
  let w' := {| fs := Sample.files_cleaned; stdout := [MsgCleaned];
               calls := [sys_remove "data/old.xml"] |} in
  clean_old_files w = (w', None) ∧
  glob_xml (fs w') = [] ∧
  (∀ path, path ∈ glob_xml (fs w) → fs w' !! path = None) ∧
  (∀ path, path ∉ glob_xml (fs w) → fs w' !! path = fs w !! path) ∧
  calls w' = calls w ++ (sys_remove <$> glob_xml (fs w)) ∧
  stdout w' = stdout w ++ [MsgCleaned].
Proof.
  intros w w'.
  assert (clean_old_files w = (w', None)) as Hclean by (vm_compute; reflexivity).
  split; [exact Hclean |].
  exact (X10_clean_removes_xml_entries w w' Hclean).
Defined.

Lemma X11_witness :
  let w := Sample.fresh Sample.files in
  let w1 := {| fs := Sample.files_cleaned; stdout := [MsgCleaned];
               calls := [sys_remove "data/old.xml"] |} in
  clean_old_files w = (w1, None) ∧
  clean_old_files w1 = (print MsgCleaned w1, None).
Proof.
  intros w w1.
  assert (clean_old_files w = (w1, None)) as Hclean by (vm_compute; reflexivity).
  split; [exact Hclean |].
  exact (X11_clean_twice w w1 Hclean).
Defined.

Lemma X12_witness :
  let w := Sample.fresh (<["data/broken.xml" := Dir]> Sample.files) in
  fs w !! OUTPUT_DIR = Some Dir ∧
  xml_entry "data/broken.xml" ∧
  fs w !! "data/broken.xml" = Some Dir ∧
  ∃ w' e,
    clean_old_files w = (w', Some e) ∧
    fs w' !! "data/broken.xml" = Some Dir ∧ stdout w' = stdout w.
Proof.
  intros w.
  assert (xml_entry "data/broken.xml") as Hentry
    by (exists "broken.xml"; repeat split; reflexivity).
  split; [reflexivity |]. split; [exact Hentry |]. split; [reflexivity |].
  exact (X12_clean_stops_at_directory w "data/broken.xml" eq_refl Hentry eq_refl).
Defined.

Lemma X13_witness :
  let data := {| collection_type := "FeatureCollection";
                 features := [Sample.centro_feature] |} in
  let w := Sample.fresh ∅ in
  let w' := {| fs := Sample.files_cleaned;
               stdout := [MsgSaved "data/low_emission_zones.geojson"];
               calls := [sys_makedirs "data";
                         sys_open_w "data/low_emission_zones.geojson"] |} in
  simple_name GEOJSON_FILE ∧
  save_geojson Sample.json_dump data GEOJSON_FILE w = (w', None) ∧
  fs w' !! OUTPUT_DIR = Some Dir ∧
  fs w' !! os_path_join OUTPUT_DIR GEOJSON_FILE
    = Some (File (Sample.json_dump data)) ∧
  (∀ path, path ≠ OUTPUT_DIR → path ≠ os_path_join OUTPUT_DIR GEOJSON_FILE →
           fs w' !! path = fs w !! path) ∧
  stdout w' = stdout w ++ [MsgSaved (os_path_join OUTPUT_DIR GEOJSON_FILE)].
Proof.
  intros data w w'.
  assert (simple_name GEOJSON_FILE) as Hname
    by (split; [reflexivity | split; [reflexivity | split; discriminate]]).
  assert (save_geojson Sample.json_dump data GEOJSON_FILE w = (w', None))
    as Hsave by (vm_compute; reflexivity).
  split; [exact Hname |]. split; [exact Hsave |].
  exact (X13_save_writes_collection Sample.json_dump data GEOJSON_FILE w w'
           Hname Hsave).
Defined.


Lemma X15_witness :
  let files0 := <["README.md" := File "readme"]> Sample.files in
  let w := {| fs := <["README.md" := File "readme"]> Sample.files_cleaned;
              stdout := [MsgStarting; MsgCleaned; MsgFound 4;
                         MsgUnexpected (BASE_URL +:+ "mixed.xml") AttributeError;
                         MsgErrorFetching (BASE_URL +:+ "down.xml")
                           (RequestException ConnectionError);
                         MsgErrorParsing (BASE_URL +:+ "garbled.xml") ParseError;
                         MsgSaved "data/low_emission_zones.geojson";
                         MsgFinished];
              calls := [sys_remove "data/old.xml";
                        sys_open_w "data/low_emission_zones.geojson"] |} in
  run Sample.requests_get Sample.BeautifulSoup Sample.ET_fromstring
    Sample.float_of_string Sample.json_dump files0 = (w, None) ∧
  "README.md" ≠ OUTPUT_DIR ∧
  "README.md" ≠ os_path_join OUTPUT_DIR GEOJSON_FILE ∧
  ¬ xml_entry "README.md" ∧
  fs w !! "README.md" = files0 !! "README.md".
Proof.
  intros files0 w.
  assert (run Sample.requests_get Sample.BeautifulSoup Sample.ET_fromstring
            Sample.float_of_string Sample.json_dump files0 = (w, None))
    as Hrun by (vm_compute; reflexivity).
  assert (¬ xml_entry "README.md") as Hentry.
  { intros (n & Hn & _). cbv [os_path_join OUTPUT_DIR String.append] in Hn.
    discriminate Hn. }
  split; [exact Hrun |]. split; [discriminate |]. split; [discriminate |].
  split; [exact Hentry |].
  exact (X15_run_touches_only_its_paths Sample.requests_get Sample.BeautifulSoup
           Sample.ET_fromstring Sample.float_of_string Sample.json_dump
           files0 w None "README.md" Hrun ltac:(discriminate) ltac:(discriminate)
           Hentry).
Defined.

Lemma X17_witness :
  let w := {| fs := Sample.files_cleaned;
              stdout := [MsgStarting; MsgCleaned; MsgFound 4;
                         MsgUnexpected (BASE_URL +:+ "mixed.xml") AttributeError;
                         MsgErrorFetching (BASE_URL +:+ "down.xml")
                           (RequestException ConnectionError);
                         MsgErrorParsing (BASE_URL +:+ "garbled.xml") ParseError;
                         MsgSaved "data/low_emission_zones.geojson";
                         MsgFinished];
              calls := [sys_remove "data/old.xml";
                        sys_open_w "data/low_emission_zones.geojson"] |} in
  let feats := extracted Sample.requests_get Sample.BeautifulSoup
                 Sample.ET_fromstring Sample.float_of_string in
  run Sample.requests_get Sample.BeautifulSoup Sample.ET_fromstring
    Sample.float_of_string Sample.json_dump Sample.files = (w, None) ∧
  feats = [Sample.centro_feature; Sample.centro_feature] ∧
  fs w !! os_path_join OUTPUT_DIR GEOJSON_FILE
  = Some (File (Sample.json_dump
                  {| collection_type := "FeatureCollection";
                     features := feats |})) ∧
  fs w !! OUTPUT_DIR = Some Dir ∧
  sys_open_w (os_path_join OUTPUT_DIR GEOJSON_FILE) ∈ calls w ∧
  last (stdout w) = Some MsgFinished.
Proof.
  intros w feats.
  assert (run Sample.requests_get Sample.BeautifulSoup Sample.ET_fromstring
            Sample.float_of_string Sample.json_dump Sample.files = (w, None))
    as Hrun by (vm_compute; reflexivity).
  assert (feats = [Sample.centro_feature; Sample.centro_feature]) as Hfeats
    by reflexivity.
  split; [exact Hrun |]. split; [exact Hfeats |].
  apply (X17_run_writes_the_collection Sample.requests_get Sample.BeautifulSoup
           Sample.ET_fromstring Sample.float_of_string Sample.json_dump
           Sample.files w Hrun).
  fold feats. rewrite Hfeats. discriminate.
Defined.

(** ** Nested elements and refused responses *)

Lemma iter_self (e : Element) : e ∈ iter e.
Proof. destruct e. simpl. apply elem_of_cons. by left. Qed.

Lemma elem_of_flat_map {A B} (g : A -> list B) (l : list A) (y : B) :
  y ∈ flat_map g l ↔ ∃ x, x ∈ l ∧ y ∈ g x.
Proof.
  rewrite list_elem_of_In, in_flat_map.
  split; intros (x & Hx & Hy); exists x; by rewrite ?list_elem_of_In in *.
Qed.

(** Induction on an element, with the property at hand for its children. *)
Lemma Element_nested_ind (P : Element -> Prop) :
  (∀ t tx cs, Forall P cs → P (mkElement t tx cs)) → ∀ e, P e.
Proof.
  intros Hnode. fix IH 1. intros [t tx cs]. apply Hnode.
  induction cs as [|c cs IHcs]; constructor; [apply IH | apply IHcs].
Qed.

(** The subtree of an element of a subtree is in the subtree. *)
Lemma iter_trans (x y z : Element) : y ∈ iter x → z ∈ iter y → z ∈ iter x.
Proof.
  induction x as [t tx cs IH] using Element_nested_ind. intros Hy Hz.
  simpl in *. apply elem_of_cons in Hy as [-> | Hy]; [done |].
  apply elem_of_cons. right.
  apply elem_of_flat_map in Hy as (c & Hc & Hy).
  apply elem_of_flat_map. exists c. split; [done |].
  rewrite Forall_forall in IH. by apply IH.
Qed.

Lemma select_descendant_elem_of (t : string) (x y : Element) :
  y ∈ select_descendant t x ↔
  tag y = t ∧ ∃ c, c ∈ children x ∧ y ∈ iter c.
Proof.
  unfold select_descendant, has_tag.
  rewrite list_elem_of_In, filter_In, <- list_elem_of_In, elem_of_flat_map.
  rewrite String.eqb_eq. tauto.
Qed.

(** X18. The search for descendants goes through nested elements: what is
    found below an element found below [x] is found below [x]. So a zone
    element nested in a zone element is a zone of the document as well, and
    the polygon elements of the inner zone are polygon elements of the outer
    zone too. *)
Theorem X18_descendants_of_descendants (t1 t2 : string) (x y z : Element) :
  y ∈ select_descendant t1 x → z ∈ select_descendant t2 y →
  z ∈ select_descendant t2 x.
Proof.
  rewrite !select_descendant_elem_of.
  intros (_ & c & Hc & Hy) (Hz & c' & Hc' & Hz').
  split; [done |]. exists c. split; [done |].
  apply (iter_trans c y z); [done |].
  destruct y as [ty txt cs]. simpl in *.
  apply elem_of_cons. right. apply elem_of_flat_map. by exists c'.
Qed.

Section Refused.

Context (requests_get : string -> request_error + Response)
        (ET_fromstring : string -> option Element)
        (float_of_string : string -> option float).

(** X19. A response with a status from 400 to 599 is refused whatever its
    content: the resource adds no feature and is reported as a fetch error
    with an [HTTPError]. *)
Theorem X19_error_status_is_refused (url : string) (response : Response)
    (feats : list Feature) :
  requests_get url = inr response →
  (400 ≤ status_code response < 600)%Z →
  try_body requests_get ET_fromstring float_of_string url feats
    = (feats, Some (RequestException HTTPError)) ∧
  resource_message requests_get ET_fromstring float_of_string url
    = Some (MsgErrorFetching url (RequestException HTTPError)).
Proof.
  intros Hget Hstatus.
  assert (fetch requests_get url = Raise (RequestException HTTPError)) as Hfetch.
  { unfold fetch, raise_for_status. rewrite Hget.
    by rewrite bool_decide_eq_true_2. }
  unfold resource_message, try_body. by rewrite Hfetch.
Qed.

(** X20. A document adds at most one feature for each of its zone
    elements. *)
Theorem X20_at_most_one_feature_per_zone (url : string) (response : Response)
    (root : Element) :
  fetch requests_get url = Ok response →
  ET_fromstring (content response) = Some root →
  (length (contribution requests_get ET_fromstring float_of_string url)
   ≤ length (zones_of root))%nat.
Proof.
  intros Hfetch Hroot. unfold contribution, try_body. rewrite Hfetch, Hroot.
  unfold zones_of.
  assert (∀ ofs : list (option Feature), (length (omap id ofs) ≤ length ofs)%nat)
    as Homap.
  { induction ofs as [|o ofs IH]; [done |].
    rewrite omap_id_cons, length_app. destruct o; simpl; lia. }
  destruct (for_zones float_of_string _ []) as [feats r] eqn:Hzones.
  apply for_zones_inv in Hzones. simpl. destruct r as [e|].
  - destruct Hzones as (before & zone & after & ofs & Hsplit & Hofs & _ & ->).
    apply mapM_Ok_length in Hofs. specialize (Homap ofs).
    rewrite Hsplit, !length_app. simpl. lia.
  - destruct Hzones as (ofs & Hofs & ->).
    apply mapM_Ok_length in Hofs. specialize (Homap ofs). simpl. lia.
Qed.

End Refused.

(** An inner zone with a polygon element, in an outer zone. *)
Lemma X18_witness :
  let inner := Sample.zone [Sample.triangle] in
  let outer := Sample.zone [inner] in
  let root := Sample.publication [outer] in
  outer ∈ select_descendant (qname conz "controlledZone") root ∧
  inner ∈ select_descendant (qname conz "controlledZone") outer ∧
  inner ∈ select_descendant (qname conz "controlledZone") root.
Proof.
  intros inner outer root.
  assert (outer ∈ select_descendant (qname conz "controlledZone") root) as H1.
  { apply elem_of_cons. left. reflexivity. }
  assert (inner ∈ select_descendant (qname conz "controlledZone") outer) as H2.
  { apply elem_of_cons. left. reflexivity. }
  split; [exact H1 |]. split; [exact H2 |].
  exact (X18_descendants_of_descendants _ _ root outer inner H1 H2).
Defined.

Lemma X19_witness :
  let response := {| status_code := 404; content := "" |} in
  Sample.requests_get (BASE_URL +:+ "gone.xml") = inr response ∧
  (400 ≤ status_code response < 600)%Z ∧
  try_body Sample.requests_get Sample.ET_fromstring Sample.float_of_string
    (BASE_URL +:+ "gone.xml") []
  = ([], Some (RequestException HTTPError)) ∧
  resource_message Sample.requests_get Sample.ET_fromstring
    Sample.float_of_string (BASE_URL +:+ "gone.xml")
  = Some (MsgErrorFetching (BASE_URL +:+ "gone.xml") (RequestException HTTPError)).
Proof.
  intros response.
  assert (400 ≤ status_code response < 600)%Z as Hstatus by (simpl; lia).
  split; [reflexivity |]. split; [exact Hstatus |].
  exact (X19_error_status_is_refused Sample.requests_get Sample.ET_fromstring
           Sample.float_of_string (BASE_URL +:+ "gone.xml") response []
           eq_refl Hstatus).
Defined.

Lemma X20_witness :
  fetch Sample.requests_get (BASE_URL +:+ "mixed.xml")
    = Ok {| status_code := 200; content := "<mixed/>" |} ∧
  Sample.ET_fromstring "<mixed/>"
    = Some (Sample.publication
              [Sample.zone_centro; Sample.zone_broken; Sample.zone_anonymous]) ∧
  (length (contribution Sample.requests_get Sample.ET_fromstring
             Sample.float_of_string (BASE_URL +:+ "mixed.xml"))
   ≤ length (zones_of (Sample.publication
                         [Sample.zone_centro; Sample.zone_broken;
                          Sample.zone_anonymous])))%nat.
Proof.
  split; [reflexivity |]. split; [reflexivity |].
  exact (X20_at_most_one_feature_per_zone Sample.requests_get
           Sample.ET_fromstring Sample.float_of_string
           (BASE_URL +:+ "mixed.xml")
           {| status_code := 200; content := "<mixed/>" |}
           (Sample.publication
              [Sample.zone_centro; Sample.zone_broken; Sample.zone_anonymous])
           eq_refl eq_refl).
Defined.
